(** * stockticker: the expiring cache and the stock service

    A shallow embedding of [internal/cache/cache.go] and of
    [internal/service/stock.go] (package [service]), with the properties of
    the fetch-cache-transform pipeline proved about it, and of what
    surrounds them: the configuration read from the environment, the
    quote client and the handler of [/stocks].

    Layout: machine integers and the fragment of package [time] the code
    uses; the cache; the models and the service; the configuration, the
    client and the handler; then the theorems. *)

From Stdlib Require Import ZArith Uint63 Floats Ascii Lia.
From stdpp Require Import gmap strings list fin_maps sorting pretty.

Local Open Scope Z_scope.

(** ** Machine integers *)

Module Int64.

Definition min_int64 : Z := - 2 ^ 63.
Definition max_int64 : Z := 2 ^ 63 - 1.

(** Go's signed 64-bit arithmetic wraps around silently. *)
Definition wrap (z : Z) : Z := (z + 2 ^ 63) mod 2 ^ 64 - 2 ^ 63.

Definition in_range (z : Z) : Prop := min_int64 <= z <= max_int64.

End Int64.

(** ** Package [time], as far as the cache uses it

    An instant is the number of nanoseconds since the Unix epoch, as an
    unbounded integer: [time.Time] counts seconds in an [int64], so [Add]
    does not overflow on the instants and durations met here.  A
    [time.Duration] is an [int64] count of nanoseconds.  [UnixNano]
    computes [sec * 1e9 + nsec] in [int64], which wraps around for an
    instant after the year 2262 (the documentation calls the result
    undefined there). *)

Module Time.

Definition Nanosecond : Z := 1.
Definition Second : Z := 1000000000 * Nanosecond.
Definition Minute : Z := 60 * Second.

Definition Add (t d : Z) : Z := t + d.
Definition UnixNano (t : Z) : Z := Int64.wrap t.

Definition MaxDuration : Z := Int64.max_int64.

End Time.

(** ** [internal/cache/cache.go] *)

Module Cache.

Section WithValue.

(** The dynamic values an [interface{}] can hold; [None] is the nil
    interface. *)
Variable V : Type.

Record Item : Type := mkItem {
  Value : option V;
  Expiration : Z
}.

(** The lock [mu] serialises the operations; each one is modelled as
    the atomic step it performs while holding the lock, applied to the
    clock reading [now] that its [time.Now()] returns. *)
Record Cache : Type := mkCache {
  items : gmap string Item
}.

Definition New : Cache := {| items := ∅ |}.

(** [Set]; the name is reserved in Rocq, hence the underscore. *)
Definition Set_ (c : Cache) (now : Z) (key : string) (value : option V)
    (duration : Z) : Cache :=
  let expiration := Time.UnixNano (Time.Add now duration) in
  {| items := <[key := {| Value := value; Expiration := expiration |}]> (items c) |}.

Definition Get (c : Cache) (now : Z) (key : string) : option V * bool :=
  match items c !! key with
  | None => (None, false)
  | Some item =>
      if Time.UnixNano now >? Expiration item then (None, false)
      else (Value item, true)
  end.

Definition Delete (c : Cache) (key : string) : Cache :=
  {| items := delete key (items c) |}.

(** The body of the [range] loop of [Cleanup]. *)
Definition cleanup_step (now : Z) (k : string) (v : Item)
    (acc : gmap string Item) : gmap string Item :=
  if now >? Expiration v then delete k acc else acc.

Definition Cleanup (c : Cache) (now : Z) : Cache :=
  let now := Time.UnixNano now in
  {| items := map_fold (cleanup_step now) (items c) (items c) |}.

End WithValue.

Arguments mkItem {V} _ _.
Arguments Value {V} _.
Arguments Expiration {V} _.
Arguments mkCache {V} _.
Arguments items {V} _.
Arguments New {V}.
Arguments Set_ {V} _ _ _ _ _.
Arguments Get {V} _ _ _.
Arguments Delete {V} _ _.
Arguments cleanup_step {V} _ _ _ _.
Arguments Cleanup {V} _ _.

End Cache.

(** ** [pkg/models] *)

Module Models.

Module DailyPrice.
Record t : Type := mk {
  Open : string;
  High : string;
  Low : string;
  Close : string;
  Volume : string
}.
(** The zero value, which indexing a map returns for a missing key. *)
Definition zero : t := mk "" "" "" "" "".
End DailyPrice.

Module MetaData.
Record t : Type := mk {
  Information : string;
  Symbol : string;
  LastRefreshed : string;
  OutputSize : string;
  TimeZone : string
}.
End MetaData.

Module AlphaVantageResponse.
Record t : Type := mk {
  MetaData : MetaData.t;
  TimeSeries : gmap string DailyPrice.t
}.
End AlphaVantageResponse.

Module StockPrice.
Record t : Type := mk {
  Date : string;
  Close : float
}.
End StockPrice.

Module StockData.
Record t : Type := mk {
  Symbol : string;
  Prices : list StockPrice.t;
  Average : float
}.
End StockData.

End Models.

(** ** [internal/config] *)

Module Config.
Record t : Type := mk {
  Port : string;
  APIKey : string;
  Symbol : string;
  NDays : Z          (* a Go [int] *)
}.
End Config.

(** ** Package [service] *)

Module Service.

Import Models.

(** The errors and the run-time panics a call can end in.  An error of the
    client is opaque to the service and carried as it is. *)
Inductive NumError : Type := ErrSyntax | ErrRange.

Inductive error : Type :=
| ClientError (msg : string)
| ParseCloseError (date : string) (cause : NumError)
    (* "error parsing close price for date %s: %w" *)
| NoPriceData (symbol : string).
    (* "no price data available for symbol %s" *)

Inductive panic : Type :=
| SliceBoundsOutOfRange (high : Z) (capacity : nat)
| InterfaceConversion.

Inductive result (A : Type) : Type :=
| Ok (a : A)
| Err (e : error)
| Panic (p : panic).
Arguments Ok {A} _.
Arguments Err {A} _.
Arguments Panic {A} _.

Definition bind {A B : Type} (r : result A) (k : A -> result B) : result B :=
  match r with
  | Ok a => k a
  | Err e => Err e
  | Panic p => Panic p
  end.

#[global] Instance result_bind : MBind result :=
  fun A B k r => bind r k.

(** What the cache holds behind [interface{}]: a [*models.StockData]
    (possibly the nil pointer) or a value of some other dynamic type. *)
Inductive dyn : Type :=
| StockDataPtr (p : option StockData.t)
| OtherValue (description : string).

Definition cacheDuration : Z := 15 * Time.Minute.

(** The mutable world of a service: its cache and the log of the calls
    made to the quote client, as (symbol, days). *)
Record World : Type := mkWorld {
  cache : Cache.Cache dyn;
  fetches : list (string * Z)
}.

Definition initial : World := {| cache := Cache.New; fetches := [] |}.

(** [sort.Reverse(sort.StringSlice(dates))]: [Less i j] is
    [dates[j] < dates[i]], strings compared byte by byte. *)
Definition desc (a b : string) : Prop := String.leb b a = true.

#[global] Instance desc_dec (a b : string) : Decision (desc a b).
Proof. unfold desc. apply _. Defined.

(** The keys of the time series in the order of the [range] loop, then
    sorted; the keys of a map are distinct, so every sorting algorithm
    returns this list (see [sorted_dates_unique]). *)
Definition sorted_dates (ts : gmap string DailyPrice.t) : list string :=
  merge_sort desc (map_to_list ts).*1.

(** [if len(dates) > NDays { dates = dates[:NDays] }]; a negative bound
    is a run-time panic of the slice expression. *)
Definition limit (ndays : Z) (dates : list string) : result (list string) :=
  if Z.of_nat (length dates) >? ndays then
    if ndays <? 0 then Panic (SliceBoundsOutOfRange ndays (length dates))
    else Ok (take (Z.to_nat ndays) dates)
  else Ok dates.

(** [float64(n)] for a length [n]. *)
Definition float64_of_len (n : nat) : float :=
  PrimFloat.of_uint63 (Uint63.of_Z (Z.of_nat n)).

(** Strictly newer first. *)
Definition strictly_desc (a b : string) : Prop := String.ltb b a = true.

(** The close field the loop reads for a date. *)
Definition close_of (ts : gmap string DailyPrice.t) (date : string) : string :=
  DailyPrice.Close (default DailyPrice.zero (ts !! date)).

Section WithParseFloat.

(** [strconv.ParseFloat(s, 64)], of the standard library. *)
Variable ParseFloat : string -> float + NumError.

(** The close field of a date is a number. *)
Definition parses (ts : gmap string DailyPrice.t) (date : string) : Prop :=
  exists f, ParseFloat (close_of ts date) = inl f.

(** The loop over the retained dates, with its two accumulators. *)
Fixpoint process_dates (ts : gmap string DailyPrice.t) (dates : list string)
    (prices : list StockPrice.t) (totalClose : float)
    : result (list StockPrice.t * float) :=
  match dates with
  | [] => Ok (prices, totalClose)
  | date :: rest =>
      let dailyPrice := default DailyPrice.zero (ts !! date) in
      match ParseFloat (DailyPrice.Close dailyPrice) with
      | inr err => Err (ParseCloseError date err)
      | inl closePrice =>
          process_dates ts rest
            (prices ++ [ {| StockPrice.Date := date;
                            StockPrice.Close := closePrice |} ])
            (PrimFloat.add totalClose closePrice)
      end
  end.

Definition processAPIResponse (cfg : Config.t)
    (apiResponse : AlphaVantageResponse.t) : result StockData.t :=
  let ts := AlphaVantageResponse.TimeSeries apiResponse in
  dates ← limit (Config.NDays cfg) (sorted_dates ts);
  '(prices, totalClose) ← process_dates ts dates [] PrimFloat.zero;
  if (length prices =? 0)%nat then Err (NoPriceData (Config.Symbol cfg))
  else
    let average := PrimFloat.div totalClose (float64_of_len (length prices)) in
    Ok {| StockData.Symbol := Config.Symbol cfg;
          StockData.Prices := prices;
          StockData.Average := average |}.

(** The type assertion of the cached value to a pointer to [StockData]. *)
Definition assert_StockData (v : option dyn) : result (option StockData.t) :=
  match v with
  | Some (StockDataPtr p) => Ok p
  | _ => Panic InterfaceConversion
  end.

(** [GetStockData].  [t_get] and [t_set] are the clock readings of the
    cache's [Get] and [Set]; [reply] is what the quote client answers
    if it is called, and the call is logged in [fetches]; the client
    returns either an error or a pointer to a decoded response, never
    a nil response without an error.  The result is a
    [*models.StockData], [None] being the nil pointer. *)
Definition GetStockData (cfg : Config.t) (t_get t_set : Z)
    (reply : AlphaVantageResponse.t + error) (w : World)
    : result (option StockData.t) * World :=
  let cacheKey := Config.Symbol cfg in
  match Cache.Get (cache w) t_get cacheKey with
  | (cachedData, true) => (assert_StockData cachedData, w)
  | (_, false) =>
      let w := {| cache := cache w;
                  fetches := fetches w ++ [(Config.Symbol cfg, Config.NDays cfg)] |} in
      match reply with
      | inr err => (Err err, w)
      | inl apiResponse =>
          match processAPIResponse cfg apiResponse with
          | Err err => (Err err, w)
          | Panic p => (Panic p, w)
          | Ok stockData =>
              (Ok (Some stockData),
               {| cache := Cache.Set_ (cache w) t_set cacheKey
                             (Some (StockDataPtr (Some stockData))) cacheDuration;
                  fetches := fetches w |})
          end
      end
  end.

(** The worlds a service reaches from a fresh cache when [GetStockData]
    is the only operation applied to it. *)
Inductive reachable (cfg : Config.t) : World -> Prop :=
| reachable_initial : reachable cfg initial
| reachable_call w t_get t_set reply :
    reachable cfg w ->
    reachable cfg (snd (GetStockData cfg t_get t_set reply w)).

(** What the service writes under its key: a non-nil pointer to the
    result of a successful transform, and nothing under any other key. *)
Definition cache_well_typed (cfg : Config.t) (c : Cache.Cache dyn) : Prop :=
  forall key item,
    Cache.items c !! key = Some item ->
    key = Config.Symbol cfg
    /\ exists apiResponse stockData,
         processAPIResponse cfg apiResponse = Ok stockData
         /\ Cache.Value item = Some (StockDataPtr (Some stockData)).

End WithParseFloat.

(** A fragment of [strconv.ParseFloat]: plain decimal literals
    [[+-]digits[.digits]] whose digits, read as an integer, stay below
    [2^53] with at most 18 of them after the point.  On these the
    library takes its exact path: the float of the integer divided by
    the power of ten, one correctly rounded operation.  Everything else
    (exponents, hexadecimal, [inf], [nan], longer mantissas) is outside
    the fragment and answered [ErrSyntax] here. *)
Definition digit_of (c : Ascii.ascii) : option Z :=
  let n := Z.of_N (Ascii.N_of_ascii c) in
  if (48 <=? n) && (n <=? 57) then Some (n - 48) else None.

(** Reads digits with at most one point; returns the mantissa, the
    number of digits read and the number of digits after the point. *)
Fixpoint read_digits (s : string) (seen_point : bool) (mant : Z)
    (ndigits nfrac : nat) : option (Z * nat * nat) :=
  match s with
  | EmptyString => Some (mant, ndigits, nfrac)
  | String c rest =>
      match digit_of c with
      | Some d =>
          read_digits rest seen_point (10 * mant + d) (S ndigits)
            (if seen_point then S nfrac else nfrac)
      | None =>
          if Ascii.eqb c "."%char && negb seen_point
          then read_digits rest true mant ndigits nfrac
          else None
      end
  end.

Definition ParseFloat_decimal (s : string) : float + NumError :=
  let '(neg, body) :=
    match s with
    | String "-"%char rest => (true, rest)
    | String "+"%char rest => (false, rest)
    | _ => (false, s)
    end in
  match read_digits body false 0 0 0 with
  | Some (mant, S _, nfrac) =>
      if (mant <? 2 ^ 53) && (Nat.leb nfrac 18) then
        let f := PrimFloat.div (PrimFloat.of_uint63 (Uint63.of_Z mant))
                   (PrimFloat.of_uint63 (Uint63.of_Z (10 ^ Z.of_nat nfrac))) in
        inl (if neg then PrimFloat.opp f else f)
      else inr ErrSyntax
  | _ => inr ErrSyntax
  end.

End Service.

(** ** Data of the examples: the payloads of the specification and of
    [stock_test.go] *)

Module Fixtures.
Import Models Service.

#[local] Set Warnings "-inexact-float".

Definition close_only (close : string) : DailyPrice.t :=
  {| DailyPrice.Open := ""; DailyPrice.High := ""; DailyPrice.Low := "";
     DailyPrice.Close := close; DailyPrice.Volume := "" |}.

Definition no_meta : MetaData.t := MetaData.mk "" "" "" "" "".

Definition response (ts : gmap string DailyPrice.t) : AlphaVantageResponse.t :=
  {| AlphaVantageResponse.MetaData := no_meta;
     AlphaVantageResponse.TimeSeries := ts |}.

Definition config (symbol : string) (ndays : Z) : Config.t :=
  {| Config.Port := "8080"; Config.APIKey := "demo";
     Config.Symbol := symbol; Config.NDays := ndays |}.

Definition three_days : gmap string DailyPrice.t :=
  <["2023-01-01" := close_only "140.20"]>
  (<["2023-01-02" := close_only "145.50"]>
  (<["2023-01-03" := close_only "150.10"]> ∅)).

Definition two_days : gmap string DailyPrice.t :=
  <["2023-01-02" := close_only "145.50"]>
  (<["2023-01-03" := close_only "150.10"]> ∅).

Definition five_days : gmap string DailyPrice.t :=
  <["2023-01-05" := close_only "160.00"]>
  (<["2023-01-04" := close_only "155.75"]> three_days).

(** The oldest of three dates carries a close that is not a number. *)
Definition oldest_invalid : gmap string DailyPrice.t :=
  <["2023-01-01" := close_only "invalid"]> three_days.

Definition one_invalid : gmap string DailyPrice.t :=
  <["2023-01-03" := close_only "invalid"]>
  (<["2023-01-02" := close_only "145.50"]> ∅).

(** The float64 constants [150.10], [145.50] and [147.8]: the nearest
    binary64 numbers. *)
Definition f150_10 : float := 150.1%float.
Definition f145_50 : float := 145.5%float.
Definition f147_8 : float := 147.8%float.

Definition two_newest : StockData.t :=
  {| StockData.Symbol := "AAPL";
     StockData.Prices :=
       [ {| StockPrice.Date := "2023-01-03"; StockPrice.Close := f150_10 |};
         {| StockPrice.Date := "2023-01-02"; StockPrice.Close := f145_50 |} ];
     StockData.Average := f147_8 |}.

(** An instant of the year 2026, in Unix nanoseconds. *)
Definition t2026 : Z := 1793000000000000000.

(** A world whose cache still holds an entry written at the epoch, long
    expired in 2026. *)
Definition stale_world : World :=
  {| cache := Cache.Set_ Cache.New 0 "AAPL"
                (Some (StockDataPtr (Some two_newest))) cacheDuration;
     fetches := [] |}.

(** The world after a first call that filled the cache. *)
Definition filled_world : World :=
  snd (GetStockData ParseFloat_decimal (config "AAPL" 2) t2026 (t2026 + Time.Second)
         (inl (response three_days)) initial).

End Fixtures.

(** ** Package [strconv]: [Atoi]

    Modelled on the standard library: an optional sign and decimal
    digits, scanned from the left as [ParseUint] does, a value outside
    [int64] being a range error. *)

Module Strconv.
Import Service.

Definition maxUint64 : Z := 2 ^ 64 - 1.

Fixpoint parse_uint (s : string) (n : Z) : Z + NumError :=
  match s with
  | EmptyString => inl n
  | String c rest =>
      match digit_of c with
      | None => inr ErrSyntax
      | Some d =>
          if n >=? maxUint64 / 10 + 1 then inr ErrRange
          else
            let n1 := n * 10 + d in
            if n1 >? maxUint64 then inr ErrRange else parse_uint rest n1
      end
  end.

Definition Atoi (s : string) : Z + NumError :=
  let '(neg, body) :=
    match s with
    | String "+"%char rest => (false, rest)
    | String "-"%char rest => (true, rest)
    | _ => (false, s)
    end in
  match body with
  | EmptyString => inr ErrSyntax
  | _ =>
      match parse_uint body 0 with
      | inr err => inr err
      | inl un =>
          if negb neg && (un >=? 2 ^ 63) then inr ErrRange
          else if neg && (un >? 2 ^ 63) then inr ErrRange
          else inl (if neg then - un else un)
      end
  end.

(** [Itoa]: the decimal numeral, with a minus sign when negative. *)
Definition Itoa (n : Z) : string := pretty n.

End Strconv.

(** ** Package [config]: [New] *)

Module ConfigEnv.
Import Service.

Definition DefaultPort : string := "8080".
Definition DefaultSymbol : string := "IBM".
Definition DefaultNDays : Z := 7.

Inductive error : Type :=
| InvalidNDays (cause : NumError)   (* "invalid N_DAYS value: %w" *)
| APIKeyRequired.                   (* "API_KEY environment variable is required" *)

(** [os.Getenv]: the value of the variable, empty when it is not set. *)
Definition Getenv (env : gmap string string) (key : string) : string :=
  default "" (env !! key).

Definition getEnvOrDefault (env : gmap string string) (key defaultValue : string)
    : string :=
  let value := Getenv env key in
  if decide (value = "") then defaultValue else value.

Section WithStrconv.

Variable Atoi : string -> Z + NumError.
Variable Itoa : Z -> string.

Definition New (env : gmap string string) : Config.t + error :=
  let port := getEnvOrDefault env "PORT" DefaultPort in
  let apiKey := Getenv env "API_KEY" in
  let symbol := getEnvOrDefault env "SYMBOL" DefaultSymbol in
  let nDaysStr := getEnvOrDefault env "N_DAYS" (Itoa DefaultNDays) in
  match Atoi nDaysStr with
  | inr err => inr (InvalidNDays err)
  | inl nDays =>
      if decide (apiKey = "") then inr APIKeyRequired
      else inl {| Config.Port := port; Config.APIKey := apiKey;
                  Config.Symbol := symbol; Config.NDays := nDays |}
  end.

End WithStrconv.

End ConfigEnv.

(** ** [internal/client/alphavantage.go] *)

Module Client.
Import Models.

Definition baseURL : string := "https://www.alphavantage.co/query".
Definition function : string := "TIME_SERIES_DAILY".
Definition outputSizeCompact : string := "compact".
Definition outputSizeFull : string := "full".
Definition compactOutputSizeLimit : Z := 100.

(** What [httpClient.Get] yields: a transport error, or a response with
    its status code and the bytes of its body. *)
Inductive http_outcome : Type :=
| TransportError (cause : string)
| HttpResponse (StatusCode : Z) (Body : string).

Inductive error : Type :=
| RequestError (cause : string)
| StatusError (StatusCode : Z) (body : string)
| DecodeError (cause : string)
| NoDataReturned.

(** The text of the error, as [fmt.Errorf] builds it. *)
Definition message (e : error) : string :=
  match e with
  | RequestError cause => "error making request to Alpha Vantage: " +:+ cause
  | StatusError code body =>
      "Alpha Vantage API error (status code " +:+ pretty code +:+ "): " +:+ body
  | DecodeError cause => "error decoding Alpha Vantage response: " +:+ cause
  | NoDataReturned =>
      "no data returned from Alpha Vantage, possibly invalid symbol or API key"
  end.

(** [url.Values]: [Add] appends to the values of a key, [Encode] lists
    the keys in ascending order, each with its values, escaped and joined
    by ampersands. *)
Definition asc (a b : string) : Prop := String.leb a b = true.

#[global] Instance asc_dec (a b : string) : Decision (asc a b).
Proof. unfold asc. apply _. Defined.

Definition Add (v : gmap string (list string)) (key value : string)
    : gmap string (list string) :=
  <[key := default [] (v !! key) ++ [value]]> v.

Section WithEffects.

(** [url.QueryEscape], the decoder of the JSON body and the answer of the
    remote server to a request. *)
Variable QueryEscape : string -> string.
Variable Decode : string -> AlphaVantageResponse.t + string.
Variable Get : string -> http_outcome.

Definition Encode (v : gmap string (list string)) : string :=
  let pairs :=
    k ← merge_sort asc (map_to_list v).*1;
    (fun value => QueryEscape k +:+ "=" +:+ QueryEscape value)
      <$> default [] (v !! k) in
  String.concat "&" pairs.

Definition params (apiKey symbol : string) (days : Z) : gmap string (list string) :=
  let params := Add ∅ "apikey" apiKey in
  let params := Add params "function" function in
  let params := Add params "symbol" symbol in
  if days >? compactOutputSizeLimit
  then Add params "outputsize" outputSizeFull
  else Add params "outputsize" outputSizeCompact.

Definition reqURL (apiKey symbol : string) (days : Z) : string :=
  baseURL +:+ "?" +:+ Encode (params apiKey symbol days).

Definition GetStockData (apiKey symbol : string) (days : Z)
    : AlphaVantageResponse.t + error :=
  match Get (reqURL apiKey symbol days) with
  | TransportError cause => inr (RequestError cause)
  | HttpResponse StatusCode Body =>
      if decide (StatusCode ≠ 200) then inr (StatusError StatusCode Body)
      else
        match Decode Body with
        | inr cause => inr (DecodeError cause)
        | inl result =>
            if decide (size (AlphaVantageResponse.TimeSeries result) = 0%nat)
            then inr NoDataReturned
            else inl result
        end
  end.

(** What the service receives from its client: the response, or the
    error as it is. *)
Definition reply (apiKey symbol : string) (days : Z)
    : AlphaVantageResponse.t + Service.error :=
  match GetStockData apiKey symbol days with
  | inl result => inl result
  | inr err => inr (Service.ClientError (message err))
  end.

End WithEffects.

End Client.

(** ** [internal/api/handler/stock.go] *)

Module Handler.
Import Models Service.

(** The values handed to the JSON encoder. *)
Inductive payload : Type :=
| StockResponse (Symbol : string) (Prices : list StockPrice.t) (Average : float)
| ErrorResponse (Error : string).

(** What a handler does to its [http.ResponseWriter] and to the log, in
    order. *)
Inductive event : Type :=
| HeaderSet (key value : string)
| WriteHeader (statusCode : Z)
| Encode (data : payload)
| HttpError (message : string) (code : Z)
| LogErrorGettingStockData (err : error)
| LogErrorEncodingJSON (cause : string)
| LogErrorEncodingError (cause : string).

Inductive outcome : Type :=
| Responded (events : list event)
| Panicked (p : panic)
| NilPointerDereference.

Definition MethodGet : string := "GET".
Definition StatusOK : Z := 200.
Definition StatusMethodNotAllowed : Z := 405.
Definition StatusInternalServerError : Z := 500.

Section WithEffects.

Variable ParseFloat : string -> float + NumError.
(** [err.Error()] and the error of the JSON encoder on a value, if any. *)
Variable Error : error -> string.
Variable encode_error : payload -> option string.

Definition sendJSONResponse (data : payload) : list event :=
  [HeaderSet "Content-Type" "application/json"; WriteHeader StatusOK; Encode data]
  ++ match encode_error data with
     | Some cause =>
         [LogErrorEncodingJSON cause;
          HttpError "Error encoding response" StatusInternalServerError]
     | None => []
     end.

Definition sendErrorResponse (message : string) (statusCode : Z) : list event :=
  let response := ErrorResponse message in
  [HeaderSet "Content-Type" "application/json"; WriteHeader statusCode; Encode response]
  ++ match encode_error response with
     | Some cause =>
         [LogErrorEncodingError cause;
          HttpError "Error encoding response" StatusInternalServerError]
     | None => []
     end.

Definition HandleStocks (cfg : Config.t) (method : string) (t_get t_set : Z)
    (reply : AlphaVantageResponse.t + error) (w : World) : outcome * World :=
  if decide (method ≠ MethodGet)
  then (Responded [HttpError "Method not allowed" StatusMethodNotAllowed], w)
  else
    match GetStockData ParseFloat cfg t_get t_set reply w with
    | (Err err, w') =>
        (Responded (LogErrorGettingStockData err
                    :: sendErrorResponse (Error err) StatusInternalServerError), w')
    | (Panic p, w') => (Panicked p, w')
    | (Ok None, w') => (NilPointerDereference, w')
    | (Ok (Some stockData), w') =>
        let response := StockResponse (StockData.Symbol stockData)
                          (StockData.Prices stockData)
                          (StockData.Average stockData) in
        (Responded (sendJSONResponse response), w')
    end.

(** The status the client sees: the code of the first [WriteHeader],
    direct or through [http.Error]. *)
Fixpoint status (events : list event) : option Z :=
  match events with
  | [] => None
  | WriteHeader code :: _ => Some code
  | HttpError _ code :: _ => Some code
  | _ :: rest => status rest
  end.

End WithEffects.

End Handler.

(** ** Stand-ins for the outside world in the examples *)

Module Stubs.
Import Models Service Fixtures.

(** A payload with the closes of [three_days] and other fields filled. *)
Definition three_days_full : gmap string DailyPrice.t :=
  <["2023-01-01" := DailyPrice.mk "139.00" "141.00" "138.50" "140.20" "1000"]>
  (<["2023-01-02" := DailyPrice.mk "140.20" "146.00" "140.00" "145.50" "2000"]>
  (<["2023-01-03" := DailyPrice.mk "145.50" "151.00" "145.00" "150.10" "3000"]> ∅)).

(** An environment with an API key and a negative day count. *)
Definition env_negative_days : gmap string string :=
  <["API_KEY" := "demo"]> (<["N_DAYS" := "-1"]> ∅).

(** [url.QueryEscape] on strings of letters, digits and underscores, which
    it leaves as they are. *)
Definition escape_plain (s : string) : string := s.

(** A server that answers every request with status 200 and a body that
    decodes to a response without dates. *)
Definition server_no_dates (url : string) : Client.http_outcome :=
  Client.HttpResponse 200 "{}".

Definition decode_no_dates (body : string) : AlphaVantageResponse.t + string :=
  inl (response ∅).

(** A rendering of the errors of the service and an encoder that never
    fails. *)
Definition render (err : error) : string :=
  match err with
  | ClientError msg => msg
  | ParseCloseError date _ => "error parsing close price for date " +:+ date
  | NoPriceData symbol => "no price data available for symbol " +:+ symbol
  end.

Definition encoder_ok (data : Handler.payload) : option string := None.

(** A cache with an entry that expires at instant 5 and one at 50. *)
Definition old_and_new : Cache.Cache nat :=
  Cache.Set_ (Cache.Set_ Cache.New 0 "old" (Some 1%nat) 5) 0 "new" (Some 2%nat) 50.

End Stubs.

(** * Properties *)

(** ** Machine integers *)

Module Int64Facts.
Import Int64.

Lemma wrap_in_range z : in_range z -> wrap z = z.
Proof.
  unfold in_range, wrap, min_int64, max_int64. intros Hz.
  rewrite Z.mod_small; lia.
Qed.

Lemma wrap_range z : in_range (wrap z).
Proof.
  unfold in_range, wrap, min_int64, max_int64.
  pose proof (Z.mod_pos_bound (z + 2 ^ 63) (2 ^ 64) ltac:(lia)). lia.
Qed.

End Int64Facts.

(** ** The cache *)

Module CacheFacts.
Import Cache.

Section WithValue.

Variable V : Type.
Implicit Types (c : Cache V) (item : Item V) (value : option V).

Lemma Set_lookup_eq c now key value duration :
  items (Set_ c now key value duration) !! key
  = Some {| Value := value;
            Expiration := Time.UnixNano (Time.Add now duration) |}.
Proof. unfold Set_; simpl. apply lookup_insert_eq. Qed.

Lemma Set_lookup_ne c now key key' value duration :
  key ≠ key' ->
  items (Set_ c now key value duration) !! key' = items c !! key'.
Proof. intros Hne. unfold Set_; simpl. by apply lookup_insert_ne. Qed.

Lemma expiration_in_range now duration :
  Int64.in_range (now + duration) ->
  Time.UnixNano (Time.Add now duration) = now + duration.
Proof. intros H. unfold Time.UnixNano, Time.Add. by apply Int64Facts.wrap_in_range. Qed.

(** What [Get] answers depends on the entry under the key only. *)
Lemma Get_ext c c' now key :
  items c' !! key = items c !! key -> Get c' now key = Get c now key.
Proof. unfold Get. by intros ->. Qed.

Lemma Get_absent c now key :
  items c !! key = None -> Get c now key = (None, false).
Proof. unfold Get. by intros ->. Qed.

Lemma Get_present c now key item :
  items c !! key = Some item ->
  Int64.in_range now ->
  Get c now key
  = if now >? Expiration item then (None, false) else (Value item, true).
Proof.
  intros Hk Hnow. unfold Get, Time.UnixNano.
  by rewrite Hk, Int64Facts.wrap_in_range.
Qed.

Lemma cleanup_fold_lookup now (b m : gmap string (Item V)) (j : string) :
  map_fold (cleanup_step now) b m !! j
  = match m !! j with
    | Some v => if now >? Expiration v then None else b !! j
    | None => b !! j
    end.
Proof.
  revert j.
  apply (map_fold_weak_ind
           (fun r m' => forall j, r !! j
              = match m' !! j with
                | Some v => if now >? Expiration v then None else b !! j
                | None => b !! j
                end)).
  - intros j. by rewrite lookup_empty.
  - intros i x m' r Hi IH j. unfold cleanup_step.
    destruct (decide (j = i)) as [->|Hne].
    + rewrite lookup_insert_eq.
      destruct (now >? Expiration x).
      * apply lookup_delete_eq.
      * rewrite IH, Hi. done.
    + rewrite lookup_insert_ne by done.
      destruct (now >? Expiration x).
      * rewrite lookup_delete_ne by done. apply IH.
      * apply IH.
Qed.

Lemma Cleanup_lookup c now key :
  items (Cleanup c now) !! key
  = match items c !! key with
    | Some v => if Time.UnixNano now >? Expiration v then None else Some v
    | None => None
    end.
Proof.
  unfold Cleanup; simpl. rewrite cleanup_fold_lookup.
  destruct (items c !! key) as [v|] eqn:Hk; [|done].
  by destruct (_ >? _).
Qed.

(** [Get] as a function of the entry under the key. *)
Lemma Get_true_iff c now key value :
  Int64.in_range now ->
  Get c now key = (value, true)
  <-> exists item, items c !! key = Some item /\ Value item = value
                   /\ now <= Expiration item.
Proof.
  intros Hnow. destruct (items c !! key) as [item|] eqn:Hk.
  - rewrite (Get_present _ _ _ _ Hk Hnow).
    destruct (Z.gtb_spec now (Expiration item)) as [Hgt|Hle]; split.
    + intros [=].
    + intros (item' & [= <-] & _ & Hle). lia.
    + intros [= <-]. by exists item.
    + intros (item' & [= <-] & <- & _). done.
  - rewrite (Get_absent _ _ _ Hk). split; [intros [=]|].
    intros (item & [=] & _).
Qed.

Lemma Get_false_nil c now key :
  snd (Get c now key) = false -> Get c now key = (None, false).
Proof.
  unfold Get. destruct (items c !! key) as [item|]; [|done].
  by destruct (_ >? _).
Qed.

Lemma Get_after_Set c now0 now key value duration :
  Int64.in_range (now0 + duration) ->
  Int64.in_range now ->
  Get (Set_ c now0 key value duration) now key
  = if now >? now0 + duration then (None, false) else (value, true).
Proof.
  intros Hexp Hnow.
  rewrite (Get_present _ _ _ _ (Set_lookup_eq _ _ _ _ _) Hnow); simpl.
  by rewrite expiration_in_range.
Qed.

(** C10. At a fixed instant [Cleanup] changes no answer of [Get]: it
    deletes exactly the entries that [Get] already reports as absent
    (those with [now > Expiration]) and keeps every other entry as it
    is. *)
Theorem Cleanup_preserves_Get c now key :
  Get (Cleanup c now) now key = Get c now key
  /\ items (Cleanup c now) !! key
     = match items c !! key with
       | Some item =>
           if Time.UnixNano now >? Expiration item then None else Some item
       | None => None
       end.
Proof.
  split; [|apply Cleanup_lookup].
  unfold Get. rewrite Cleanup_lookup.
  destruct (items c !! key) as [item|]; [|done].
  destruct (Time.UnixNano now >? Expiration item) eqn:Hexp; [done|].
  by rewrite Hexp.
Qed.

(** C1, as amended. An entry is visible to [Get] at instant [t] exactly
    when it is present and [t] is not after its expiry, the expiry
    instant itself included; otherwise [Get] answers [(nil, false)].
    [Set] at [t0] stores the expiry [t0 + ttl] (when that instant fits
    an [int64] of nanoseconds), so the entry it wrote, as long as it is
    still the one under the key, is returned up to and at [t0 + ttl]
    and is absent after it; with [ttl < 0] it is absent at once, and
    with [ttl = 0] it is absent at every instant after [t0]. *)
Theorem Get_visible_iff_not_after_expiry c c' key value ttl t0 t :
  Int64.in_range t ->
  Int64.in_range (t0 + ttl) ->
  items c' !! key = items (Set_ c t0 key value ttl) !! key ->
  (forall (d : Cache V) (v : option V),
      Get d t key = (v, true)
      <-> exists item, items d !! key = Some item /\ Value item = v
                       /\ t <= Expiration item)
  /\ (forall d : Cache V, snd (Get d t key) = false -> Get d t key = (None, false))
  /\ items c' !! key = Some {| Value := value; Expiration := t0 + ttl |}
  /\ (Get c' t key = (value, true) <-> t <= t0 + ttl)
  /\ (t0 + ttl < t -> Get c' t key = (None, false))
  /\ (ttl < 0 -> t0 <= t -> Get c' t key = (None, false))
  /\ (ttl = 0 -> t0 < t -> Get c' t key = (None, false)).
Proof.
  intros Ht Hexp Hsame.
  assert (HG : Get c' t key
               = if t >? t0 + ttl then (None, false) else (value, true)).
  { rewrite (Get_ext _ _ _ _ Hsame). by apply Get_after_Set. }
  split; [intros d v; by apply Get_true_iff|].
  split; [intros d; apply Get_false_nil|].
  split; [by rewrite Hsame, Set_lookup_eq, expiration_in_range|].
  rewrite HG. destruct (Z.gtb_spec t (t0 + ttl)) as [Hgt|Hle].
  - repeat split; intros; first [done | lia].
  - repeat split; intros; first [done | lia].
Qed.

(** C7, as amended. For [ttl > 0] whose expiry instant [now + ttl]
    still fits an [int64] of nanoseconds, [Get] at the very instant of
    the [Set] returns the value and [true]. *)
Theorem Get_immediately_after_Set c key value ttl now :
  0 < ttl ->
  Int64.in_range now ->
  Int64.in_range (now + ttl) ->
  Get (Set_ c now key value ttl) now key = (value, true).
Proof.
  intros Httl Hnow Hexp. rewrite Get_after_Set by done.
  destruct (Z.gtb_spec now (now + ttl)); [lia|done].
Qed.

(** C8, as amended. For [ttl > 0] whose expiry instant [t2 + ttl] fits
    an [int64] of nanoseconds, after [Set k v1] at [t1] and [Set k v2]
    at [t2] a [Get k] before [t2 + ttl] returns [(v2, true)]; the
    second [Set] leaves the cache as if the first had never happened. *)
Theorem Set_overwrites c key v1 v2 ttl t1 t2 t :
  0 < ttl ->
  Int64.in_range t ->
  Int64.in_range (t2 + ttl) ->
  t < t2 + ttl ->
  Get (Set_ (Set_ c t1 key v1 ttl) t2 key v2 ttl) t key = (v2, true)
  /\ Set_ (Set_ c t1 key v1 ttl) t2 key v2 ttl = Set_ c t2 key v2 ttl.
Proof.
  intros Httl Ht Hexp Hbefore. split.
  - rewrite Get_after_Set by done.
    destruct (Z.gtb_spec t (t2 + ttl)); [lia|done].
  - unfold Set_; simpl. f_equal. apply insert_insert_eq.
Qed.

End WithValue.

End CacheFacts.

(** ** The order on dates *)

Module StringOrder.

Lemma ascii_compare_Lt_trans (a b c : Ascii.ascii) :
  Ascii.compare a b = Lt -> Ascii.compare b c = Lt -> Ascii.compare a c = Lt.
Proof.
  unfold Ascii.compare. rewrite !N.compare_lt_iff. apply N.lt_trans.
Qed.

Lemma compare_refl (s : string) : String.compare s s = Eq.
Proof.
  induction s as [|a s IH]; simpl; [done|].
  unfold Ascii.compare. by rewrite N.compare_refl.
Qed.

Lemma compare_Lt_trans (s1 s2 s3 : string) :
  String.compare s1 s2 = Lt -> String.compare s2 s3 = Lt ->
  String.compare s1 s3 = Lt.
Proof.
  revert s2 s3. induction s1 as [|a s1 IH]; intros [|b s2] [|c s3]; simpl;
    try done.
  destruct (Ascii.compare a b) eqn:Hab; try done;
    destruct (Ascii.compare b c) eqn:Hbc; try done; intros H12 H23.
  - apply Ascii.compare_eq_iff in Hab, Hbc. subst.
    unfold Ascii.compare. rewrite N.compare_refl. by eapply IH.
  - apply Ascii.compare_eq_iff in Hab. subst. by rewrite Hbc.
  - apply Ascii.compare_eq_iff in Hbc. subst. by rewrite Hab.
  - by rewrite (ascii_compare_Lt_trans _ _ _ Hab Hbc).
Qed.

Lemma leb_refl (s : string) : String.leb s s = true.
Proof. unfold String.leb. by rewrite compare_refl. Qed.

Lemma leb_trans (s1 s2 s3 : string) :
  String.leb s1 s2 = true -> String.leb s2 s3 = true -> String.leb s1 s3 = true.
Proof.
  unfold String.leb.
  destruct (String.compare s1 s2) eqn:H12; try done;
    destruct (String.compare s2 s3) eqn:H23; try done; intros _ _.
  - apply String.compare_eq_iff in H12, H23. subst. by rewrite compare_refl.
  - apply String.compare_eq_iff in H12. subst. by rewrite H23.
  - apply String.compare_eq_iff in H23. subst. by rewrite H12.
  - by rewrite (compare_Lt_trans _ _ _ H12 H23).
Qed.

Lemma ltb_of_leb_ne (s1 s2 : string) :
  String.leb s1 s2 = true -> s1 <> s2 -> String.ltb s1 s2 = true.
Proof.
  unfold String.leb, String.ltb.
  destruct (String.compare s1 s2) eqn:H12; try done.
  apply String.compare_eq_iff in H12. done.
Qed.

End StringOrder.

(** ** The service *)

Module ServiceFacts.
Import Models Service.

#[global] Instance desc_total : Total desc.
Proof. intros a b. unfold desc. destruct (String.leb_total a b); auto. Qed.

#[global] Instance desc_trans : Transitive desc.
Proof. intros a b c Hab Hbc. unfold desc in *. by eapply StringOrder.leb_trans. Qed.

#[global] Instance desc_antisymm : AntiSymm (=) desc.
Proof. intros a b Hab Hba. unfold desc in *. by apply String.leb_antisym. Qed.

Lemma sorted_dates_Permutation (ts : gmap string DailyPrice.t) :
  sorted_dates ts ≡ₚ (map_to_list ts).*1.
Proof. apply merge_sort_Permutation. Qed.

Lemma sorted_dates_Sorted (ts : gmap string DailyPrice.t) :
  Sorted desc (sorted_dates ts).
Proof. apply Sorted_merge_sort, _. Qed.

(** Whatever order the [range] loop yields the keys in and whatever the
    sorting algorithm, the sorted slice is this list. *)
Lemma sorted_dates_unique (ts : gmap string DailyPrice.t) (dates : list string) :
  dates ≡ₚ (map_to_list ts).*1 -> Sorted desc dates -> dates = sorted_dates ts.
Proof.
  intros Hperm Hsorted. apply (Sorted_unique desc); [done|apply sorted_dates_Sorted|].
  by rewrite Hperm, sorted_dates_Permutation.
Qed.

Lemma sorted_dates_NoDup (ts : gmap string DailyPrice.t) : NoDup (sorted_dates ts).
Proof. rewrite sorted_dates_Permutation. apply NoDup_fst_map_to_list. Qed.

Lemma sorted_dates_length (ts : gmap string DailyPrice.t) :
  length (sorted_dates ts) = size ts.
Proof.
  rewrite sorted_dates_Permutation, length_fmap. apply length_map_to_list.
Qed.

Lemma sorted_dates_elem_of (ts : gmap string DailyPrice.t) (date : string) :
  date ∈ sorted_dates ts <-> is_Some (ts !! date).
Proof.
  rewrite sorted_dates_Permutation, list_elem_of_fmap. split.
  - intros ([d p] & -> & Hin). apply elem_of_map_to_list in Hin. by exists p.
  - intros [p Hp]. exists (date, p). split; [done|]. by apply elem_of_map_to_list.
Qed.

Lemma StronglySorted_strict (l : list string) :
  StronglySorted desc l -> NoDup l -> StronglySorted strictly_desc l.
Proof.
  induction 1 as [|a l Hl IH Hall]; intros Hnd; [constructor|].
  apply NoDup_cons in Hnd as [Hnotin Hnd]. constructor; [by apply IH|].
  rewrite Forall_forall in Hall |- *. intros b Hb.
  apply StringOrder.ltb_of_leb_ne; [by apply Hall|]. intros ->. done.
Qed.

Lemma sorted_dates_strictly_desc (ts : gmap string DailyPrice.t) :
  StronglySorted strictly_desc (sorted_dates ts).
Proof.
  apply StronglySorted_strict; [|apply sorted_dates_NoDup].
  apply StronglySorted_merge_sort; apply _.
Qed.

(** *** Truncation *)

Lemma limit_negative (ndays : Z) (dates : list string) :
  ndays < 0 -> limit ndays dates = Panic (SliceBoundsOutOfRange ndays (length dates)).
Proof.
  intros Hneg. unfold limit.
  destruct (Z.gtb_spec (Z.of_nat (length dates)) ndays); [|lia].
  destruct (Z.ltb_spec ndays 0); [done|lia].
Qed.

Lemma limit_nonneg (ndays : Z) (dates : list string) :
  0 <= ndays -> limit ndays dates = Ok (take (Z.to_nat ndays) dates).
Proof.
  intros Hnn. unfold limit.
  destruct (Z.gtb_spec (Z.of_nat (length dates)) ndays).
  - destruct (Z.ltb_spec ndays 0); [lia|done].
  - rewrite take_ge; [done|lia].
Qed.

Lemma limit_Ok (ndays : Z) (dates retained : list string) :
  limit ndays dates = Ok retained ->
  0 <= ndays /\ retained = take (Z.to_nat ndays) dates.
Proof.
  intros H. destruct (Z.lt_ge_cases ndays 0) as [Hneg|Hnn].
  - by rewrite limit_negative in H.
  - rewrite limit_nonneg in H by done. by injection H as <-.
Qed.

Lemma limit_length (ndays : Z) (dates retained : list string) :
  limit ndays dates = Ok retained ->
  Z.of_nat (length retained) = Z.min ndays (Z.of_nat (length dates)).
Proof.
  intros [Hnn ->]%limit_Ok. rewrite length_take. lia.
Qed.

(** *** The loop and the transform *)

Section WithParseFloat.

Variable ParseFloat : string -> float + NumError.

Lemma process_dates_Ok ts dates prices0 total0 prices total :
  process_dates ParseFloat ts dates prices0 total0 = Ok (prices, total) ->
  exists new,
    prices = prices0 ++ new
    /\ StockPrice.Date <$> new = dates
    /\ Forall (fun p => ParseFloat (close_of ts (StockPrice.Date p))
                        = inl (StockPrice.Close p)) new
    /\ total = fold_left PrimFloat.add (StockPrice.Close <$> new) total0.
Proof.
  revert prices0 total0. induction dates as [|date rest IH]; intros prices0 total0; simpl.
  - intros [= <- <-]. exists []. by rewrite app_nil_r.
  - fold (close_of ts date).
    destruct (ParseFloat (close_of ts date)) as [closePrice|err] eqn:Hparse; [|done].
    intros (new & -> & <- & Hall & ->)%IH.
    exists ({| StockPrice.Date := date; StockPrice.Close := closePrice |} :: new).
    rewrite <- app_assoc. repeat split; try done. by constructor.
Qed.

Lemma process_dates_parses ts dates prices0 total0 :
  Forall (parses ParseFloat ts) dates ->
  exists prices total,
    process_dates ParseFloat ts dates prices0 total0 = Ok (prices, total).
Proof.
  intros Hall. revert prices0 total0.
  induction Hall as [|date rest [f Hf] _ IH]; intros prices0 total0; simpl.
  - by eexists _, _.
  - fold (close_of ts date). rewrite Hf. apply IH.
Qed.

(** Fail-fast: the first retained date whose close does not parse ends the
    loop with its error. *)
Lemma process_dates_fail ts good date rest cause prices0 total0 :
  Forall (parses ParseFloat ts) good ->
  ParseFloat (close_of ts date) = inr cause ->
  process_dates ParseFloat ts (good ++ date :: rest) prices0 total0
  = Err (ParseCloseError date cause).
Proof.
  intros Hall Hbad. revert prices0 total0.
  induction Hall as [|d good' [f Hf] _ IH]; intros prices0 total0; simpl.
  - fold (close_of ts date). by rewrite Hbad.
  - fold (close_of ts d). rewrite Hf. apply IH.
Qed.

Lemma process_dates_not_Panic ts dates prices0 total0 p :
  process_dates ParseFloat ts dates prices0 total0 <> Panic p.
Proof.
  revert prices0 total0. induction dates as [|date rest IH]; intros prices0 total0; simpl.
  - done.
  - destruct (ParseFloat _); [apply IH|done].
Qed.

Lemma processAPIResponse_unfold cfg apiResponse :
  processAPIResponse ParseFloat cfg apiResponse
  = let ts := AlphaVantageResponse.TimeSeries apiResponse in
    match limit (Config.NDays cfg) (sorted_dates ts) with
    | Ok dates =>
        match process_dates ParseFloat ts dates [] PrimFloat.zero with
        | Ok (prices, totalClose) =>
            if (length prices =? 0)%nat then Err (NoPriceData (Config.Symbol cfg))
            else Ok {| StockData.Symbol := Config.Symbol cfg;
                       StockData.Prices := prices;
                       StockData.Average :=
                         PrimFloat.div totalClose (float64_of_len (length prices)) |}
        | Err e => Err e
        | Panic p => Panic p
        end
    | Err e => Err e
    | Panic p => Panic p
    end.
Proof.
  unfold processAPIResponse, mbind, result_bind, bind; simpl.
  destruct (limit _ _); done.
Qed.

(** What a successful transform returns. *)
Lemma processAPIResponse_Ok cfg apiResponse stockData :
  processAPIResponse ParseFloat cfg apiResponse = Ok stockData ->
  let ts := AlphaVantageResponse.TimeSeries apiResponse in
  let prices := StockData.Prices stockData in
  0 <= Config.NDays cfg
  /\ StockPrice.Date <$> prices = take (Z.to_nat (Config.NDays cfg)) (sorted_dates ts)
  /\ Forall (fun p => ParseFloat (close_of ts (StockPrice.Date p))
                      = inl (StockPrice.Close p)) prices
  /\ prices <> []
  /\ StockData.Symbol stockData = Config.Symbol cfg
  /\ StockData.Average stockData
     = PrimFloat.div (fold_left PrimFloat.add (StockPrice.Close <$> prices) PrimFloat.zero)
         (float64_of_len (length prices)).
Proof.
  rewrite processAPIResponse_unfold; simpl.
  destruct (limit _ _) as [dates| |] eqn:Hlimit; try done.
  apply limit_Ok in Hlimit as [Hnn ->].
  destruct (process_dates _ _ _ _ _) as [[prices total]| |] eqn:Hloop; try done.
  apply process_dates_Ok in Hloop as (new & -> & Hdates & Hall & ->). simpl in *.
  destruct (Nat.eqb_spec (length new) 0) as [|Hlen]; [done|].
  intros [= <-]; simpl. repeat split; try done.
  intros ->. done.
Qed.

Lemma processAPIResponse_negative cfg apiResponse :
  Config.NDays cfg < 0 ->
  processAPIResponse ParseFloat cfg apiResponse
  = Panic (SliceBoundsOutOfRange (Config.NDays cfg)
             (size (AlphaVantageResponse.TimeSeries apiResponse))).
Proof.
  intros Hneg. rewrite processAPIResponse_unfold; simpl.
  by rewrite limit_negative, sorted_dates_length.
Qed.

(** No date retained: the "no price data" error. *)
Lemma processAPIResponse_no_data cfg apiResponse :
  Z.min (Config.NDays cfg) (Z.of_nat (size (AlphaVantageResponse.TimeSeries apiResponse))) = 0 ->
  processAPIResponse ParseFloat cfg apiResponse = Err (NoPriceData (Config.Symbol cfg)).
Proof.
  intros Hmin. rewrite processAPIResponse_unfold; simpl.
  rewrite limit_nonneg by lia.
  assert (Hnil : take (Z.to_nat (Config.NDays cfg))
                   (sorted_dates (AlphaVantageResponse.TimeSeries apiResponse)) = []).
  { apply length_zero_iff_nil. rewrite length_take, sorted_dates_length. lia. }
  by rewrite Hnil.
Qed.

(** A retained date whose close does not parse fails the transform. *)
Lemma processAPIResponse_parse_fail cfg apiResponse good date rest cause :
  let ts := AlphaVantageResponse.TimeSeries apiResponse in
  0 <= Config.NDays cfg ->
  take (Z.to_nat (Config.NDays cfg)) (sorted_dates ts) = good ++ date :: rest ->
  Forall (parses ParseFloat ts) good ->
  ParseFloat (close_of ts date) = inr cause ->
  processAPIResponse ParseFloat cfg apiResponse = Err (ParseCloseError date cause).
Proof.
  intros ts Hnn Hdates Hgood Hbad. rewrite processAPIResponse_unfold; simpl.
  rewrite limit_nonneg by done. fold ts. rewrite Hdates.
  by rewrite (process_dates_fail _ _ _ _ cause).
Qed.

(** When every retained close parses and a date is retained, the transform
    succeeds. *)
Lemma processAPIResponse_succeeds cfg apiResponse :
  let ts := AlphaVantageResponse.TimeSeries apiResponse in
  0 < Config.NDays cfg ->
  ts <> ∅ ->
  Forall (parses ParseFloat ts) (take (Z.to_nat (Config.NDays cfg)) (sorted_dates ts)) ->
  exists stockData, processAPIResponse ParseFloat cfg apiResponse = Ok stockData.
Proof.
  intros ts Hpos Hne Hall. rewrite processAPIResponse_unfold; simpl.
  rewrite limit_nonneg by lia. fold ts.
  destruct (process_dates_parses ts _ [] PrimFloat.zero Hall) as (prices & total & Hloop).
  rewrite Hloop.
  apply process_dates_Ok in Hloop as (new & -> & Hdates & _ & _). simpl.
  destruct (Nat.eqb_spec (length new) 0) as [Hlen|Hlen]; [|by eexists].
  exfalso. apply Hne, map_size_empty_inv.
  apply (f_equal length) in Hdates.
  rewrite length_fmap, length_take, sorted_dates_length in Hdates. lia.
Qed.

(** The retained dates of a transform. *)
Lemma retained_strictly_desc (ndays : nat) (ts : gmap string DailyPrice.t) :
  StronglySorted strictly_desc (take ndays (sorted_dates ts)).
Proof.
  apply (StronglySorted_app_1_l _ _ (drop ndays (sorted_dates ts))).
  rewrite take_drop. apply sorted_dates_strictly_desc.
Qed.

(** C3. A successful transform returns prices sorted by date, strictly
    newest first, as many as the smaller of the requested days and the
    available dates, and never an empty list; when no more dates are
    available than requested all of them are kept, and the transform then
    succeeds as soon as every close parses; when no date is retained the
    transform fails with the no-price-data error. *)
Theorem processAPIResponse_sorted_truncated cfg apiResponse :
  let ts := AlphaVantageResponse.TimeSeries apiResponse in
  let available := Z.of_nat (size ts) in
  (forall stockData,
      processAPIResponse ParseFloat cfg apiResponse = Ok stockData ->
      StronglySorted strictly_desc (StockPrice.Date <$> StockData.Prices stockData)
      /\ Z.of_nat (length (StockData.Prices stockData))
         = Z.min (Config.NDays cfg) available
      /\ (available <= Config.NDays cfg ->
          StockPrice.Date <$> StockData.Prices stockData = sorted_dates ts)
      /\ StockData.Prices stockData <> [])
  /\ (0 < available <= Config.NDays cfg ->
      Forall (parses ParseFloat ts) (sorted_dates ts) ->
      exists stockData,
        processAPIResponse ParseFloat cfg apiResponse = Ok stockData
        /\ StockPrice.Date <$> StockData.Prices stockData = sorted_dates ts)
  /\ (Z.min (Config.NDays cfg) available = 0 ->
      processAPIResponse ParseFloat cfg apiResponse
      = Err (NoPriceData (Config.Symbol cfg))).
Proof.
  intros ts available.
  assert (Hkeep : available <= Config.NDays cfg ->
                  take (Z.to_nat (Config.NDays cfg)) (sorted_dates ts) = sorted_dates ts).
  { intros Hle. apply take_ge. rewrite sorted_dates_length. unfold available in Hle. lia. }
  split; [|split].
  - intros stockData (Hnn & Hdates & _ & Hne & _)%processAPIResponse_Ok.
    fold ts in Hdates. repeat split.
    + rewrite Hdates. apply retained_strictly_desc.
    + rewrite <- (length_fmap StockPrice.Date), Hdates, length_take, sorted_dates_length.
      unfold available. lia.
    + intros Hle. by rewrite Hdates, Hkeep.
    + done.
  - intros [Hpos Hle] Hall.
    destruct (processAPIResponse_succeeds cfg apiResponse) as [stockData Hok].
    + lia.
    + intros Hempty. fold ts in Hempty. unfold available in Hpos.
      rewrite Hempty, map_size_empty in Hpos. lia.
    + fold ts. by rewrite Hkeep.
    + exists stockData. split; [done|].
      apply processAPIResponse_Ok in Hok as (_ & Hdates & _).
      fold ts in Hdates. by rewrite Hdates, Hkeep.
  - apply processAPIResponse_no_data.
Qed.

(** *** [GetStockData] *)

Lemma GetStockData_hit cfg t_get t_set reply w cachedData :
  Cache.Get (cache w) t_get (Config.Symbol cfg) = (cachedData, true) ->
  GetStockData ParseFloat cfg t_get t_set reply w = (assert_StockData cachedData, w).
Proof. unfold GetStockData. by intros ->. Qed.

Lemma GetStockData_miss cfg t_get t_set reply w :
  snd (Cache.Get (cache w) t_get (Config.Symbol cfg)) = false ->
  GetStockData ParseFloat cfg t_get t_set reply w
  = let w' := {| cache := cache w;
                 fetches := fetches w ++ [(Config.Symbol cfg, Config.NDays cfg)] |} in
    match reply with
    | inr err => (Err err, w')
    | inl apiResponse =>
        match processAPIResponse ParseFloat cfg apiResponse with
        | Err err => (Err err, w')
        | Panic p => (Panic p, w')
        | Ok stockData =>
            (Ok (Some stockData),
             {| cache := Cache.Set_ (cache w) t_set (Config.Symbol cfg)
                           (Some (StockDataPtr (Some stockData))) cacheDuration;
                fetches := fetches w' |})
        end
    end.
Proof.
  unfold GetStockData.
  destruct (Cache.Get _ _ _) as [v found]; simpl. by intros ->.
Qed.

(** Only a successful miss writes to the cache. *)
Lemma GetStockData_cache cfg t_get t_set reply w :
  let out := GetStockData ParseFloat cfg t_get t_set reply w in
  cache (snd out) = cache w
  \/ exists apiResponse stockData,
       snd (Cache.Get (cache w) t_get (Config.Symbol cfg)) = false
       /\ reply = inl apiResponse
       /\ processAPIResponse ParseFloat cfg apiResponse = Ok stockData
       /\ fst out = Ok (Some stockData)
       /\ cache (snd out)
          = Cache.Set_ (cache w) t_set (Config.Symbol cfg)
              (Some (StockDataPtr (Some stockData))) cacheDuration.
Proof.
  simpl.
  destruct (Cache.Get (cache w) t_get (Config.Symbol cfg)) as [v [|]] eqn:Hget.
  - rewrite (GetStockData_hit _ _ _ _ _ _ Hget). by left.
  - rewrite GetStockData_miss by (by rewrite Hget).
    destruct reply as [apiResponse|err]; simpl; [|by left].
    destruct (processAPIResponse _ _ _) as [stockData| |] eqn:Hproc; simpl;
      [|by left|by left].
    right. by exists apiResponse, stockData.
Qed.

(** C4. A call that does not return a result leaves the cache as it was.
    On a miss: an error of the client is returned as it is; a retained
    date whose close does not parse, all other retained dates being
    valid, fails the call with the parse error of that date; a payload
    with no retained date fails it with the no-price-data error; and in
    each case nothing is written to the cache. *)
Theorem GetStockData_failure_atomic cfg t_get t_set reply w :
  let out := GetStockData ParseFloat cfg t_get t_set reply w in
  let miss := snd (Cache.Get (cache w) t_get (Config.Symbol cfg)) = false in
  ((forall p, fst out <> Ok p) -> cache (snd out) = cache w)
  /\ (miss -> forall err,
        reply = inr err -> fst out = Err err /\ cache (snd out) = cache w)
  /\ (miss -> forall apiResponse date cause,
        reply = inl apiResponse ->
        let ts := AlphaVantageResponse.TimeSeries apiResponse in
        let retained := take (Z.to_nat (Config.NDays cfg)) (sorted_dates ts) in
        0 <= Config.NDays cfg ->
        date ∈ retained ->
        ParseFloat (close_of ts date) = inr cause ->
        (forall d, d ∈ retained -> d <> date -> parses ParseFloat ts d) ->
        fst out = Err (ParseCloseError date cause) /\ cache (snd out) = cache w)
  /\ (miss -> forall apiResponse,
        reply = inl apiResponse ->
        Z.min (Config.NDays cfg)
          (Z.of_nat (size (AlphaVantageResponse.TimeSeries apiResponse))) = 0 ->
        fst out = Err (NoPriceData (Config.Symbol cfg))
        /\ cache (snd out) = cache w).
Proof.
  intros out miss.
  assert (Hmiss : miss -> out
            = let w' := {| cache := cache w;
                           fetches := fetches w ++ [(Config.Symbol cfg, Config.NDays cfg)] |} in
              match reply with
              | inr err => (Err err, w')
              | inl apiResponse =>
                  match processAPIResponse ParseFloat cfg apiResponse with
                  | Err err => (Err err, w')
                  | Panic p => (Panic p, w')
                  | Ok stockData =>
                      (Ok (Some stockData),
                       {| cache := Cache.Set_ (cache w) t_set (Config.Symbol cfg)
                                     (Some (StockDataPtr (Some stockData))) cacheDuration;
                          fetches := fetches w' |})
                  end
              end).
  { intros Hm. by apply GetStockData_miss. }
  split; [|split; [|split]].
  - intros Hfail. destruct (GetStockData_cache cfg t_get t_set reply w)
      as [Hsame|(resp & sd & _ & _ & _ & Hok & _)]; [done|].
    by destruct (Hfail (Some sd)).
  - intros Hm err ->. by rewrite (Hmiss Hm).
  - intros Hm apiResponse date cause -> ts retained Hnn Hin Hbad Hothers.
    rewrite (Hmiss Hm); simpl.
    apply list_elem_of_split_l in Hin as (good & rest & Hsplit & Hnotin).
    rewrite (processAPIResponse_parse_fail cfg apiResponse good date rest cause);
      try done.
    apply Forall_forall. intros d Hd. apply Hothers.
    + rewrite Hsplit. apply elem_of_app. by left.
    + intros ->. done.
  - intros Hm apiResponse -> Hmin. rewrite (Hmiss Hm); simpl.
    by rewrite processAPIResponse_no_data.
Qed.

(** C2. From an empty cache, a call that returns a result has called the
    client exactly once and has stored that result under the symbol, to
    expire 15 minutes after the instant of the [Set]; a call whose [Get]
    reads the clock before that expiry returns the stored result and
    leaves the world, the log of client calls included, as it is. *)
Theorem GetStockData_miss_then_hit cfg log t1 t2 t3 t4 reply reply' p w1 :
  let w0 := {| cache := Cache.New; fetches := log |} in
  GetStockData ParseFloat cfg t1 t2 reply w0 = (Ok p, w1) ->
  Int64.in_range (t2 + cacheDuration) ->
  Int64.in_range t3 ->
  t3 < t2 + cacheDuration ->
  (exists apiResponse stockData,
      reply = inl apiResponse
      /\ processAPIResponse ParseFloat cfg apiResponse = Ok stockData
      /\ p = Some stockData)
  /\ fetches w1 = log ++ [(Config.Symbol cfg, Config.NDays cfg)]
  /\ Cache.items (cache w1) !! Config.Symbol cfg
     = Some {| Cache.Value := Some (StockDataPtr p);
               Cache.Expiration := t2 + cacheDuration |}
  /\ GetStockData ParseFloat cfg t3 t4 reply' w1 = (Ok p, w1).
Proof.
  intros w0 Hcall Hexp Ht3 Hbefore.
  rewrite GetStockData_miss in Hcall by done. simpl in Hcall.
  destruct reply as [apiResponse|err]; [|done].
  destruct (processAPIResponse _ _ _) as [stockData| |] eqn:Hproc; try done.
  injection Hcall as <- <-. cbn [cache fetches].
  split; [by exists apiResponse, stockData|]. split; [done|].
  split.
  - by rewrite CacheFacts.Set_lookup_eq, CacheFacts.expiration_in_range.
  - rewrite (GetStockData_hit _ _ _ _ _ (Some (StockDataPtr (Some stockData))));
      [done|]. cbn [cache].
    rewrite CacheFacts.Get_after_Set by done.
    destruct (Z.gtb_spec t3 (t2 + cacheDuration)); [lia|done].
Qed.

Lemma processAPIResponse_Panic cfg apiResponse p :
  processAPIResponse ParseFloat cfg apiResponse = Panic p ->
  p = SliceBoundsOutOfRange (Config.NDays cfg)
        (size (AlphaVantageResponse.TimeSeries apiResponse)).
Proof.
  destruct (Z.lt_ge_cases (Config.NDays cfg) 0) as [Hneg|Hnn].
  - rewrite processAPIResponse_negative by done. by intros [= <-].
  - rewrite processAPIResponse_unfold; simpl. rewrite limit_nonneg by done.
    destruct (process_dates _ _ _ _ _) as [[prices total]| |] eqn:Hloop.
    + by destruct (_ =? _)%nat.
    + done.
    + by apply process_dates_not_Panic in Hloop.
Qed.

Lemma cache_well_typed_New cfg : cache_well_typed ParseFloat cfg Cache.New.
Proof. intros key item. simpl. by rewrite lookup_empty. Qed.

Lemma cache_well_typed_step cfg t_get t_set reply w :
  cache_well_typed ParseFloat cfg (cache w) ->
  cache_well_typed ParseFloat cfg
    (cache (snd (GetStockData ParseFloat cfg t_get t_set reply w))).
Proof.
  intros Hinv.
  destruct (GetStockData_cache cfg t_get t_set reply w)
    as [->|(resp & sd & _ & _ & Hproc & _ & ->)]; [done|].
  intros key item. destruct (decide (key = Config.Symbol cfg)) as [->|Hne].
  - rewrite CacheFacts.Set_lookup_eq. intros [= <-]; simpl.
    split; [done|]. by exists resp, sd.
  - rewrite CacheFacts.Set_lookup_ne by done. apply Hinv.
Qed.

Lemma reachable_cache_inv cfg w :
  reachable ParseFloat cfg w -> cache_well_typed ParseFloat cfg (cache w).
Proof.
  induction 1 as [|w t_get t_set reply _ IH].
  - apply cache_well_typed_New.
  - by apply cache_well_typed_step.
Qed.

(** C9. In every world reached from a fresh cache by calls of
    [GetStockData] alone, each entry of the cache lies under the symbol
    and holds a non-nil pointer to the result of a successful transform;
    so no call from such a world ends in the panic of the type assertion,
    and a call that hits returns such a result, with its prices sorted and
    not empty, and leaves the world as it is. *)
Theorem reachable_type_assertion_safe cfg w :
  reachable ParseFloat cfg w ->
  cache_well_typed ParseFloat cfg (cache w)
  /\ (forall t_get t_set reply,
        fst (GetStockData ParseFloat cfg t_get t_set reply w) <> Panic InterfaceConversion)
  /\ (forall t_get t_set reply,
        snd (Cache.Get (cache w) t_get (Config.Symbol cfg)) = true ->
        exists apiResponse stockData,
          processAPIResponse ParseFloat cfg apiResponse = Ok stockData
          /\ StronglySorted strictly_desc (StockPrice.Date <$> StockData.Prices stockData)
          /\ StockData.Prices stockData <> []
          /\ GetStockData ParseFloat cfg t_get t_set reply w = (Ok (Some stockData), w)).
Proof.
  intros Hinv%reachable_cache_inv.
  assert (Hhit : forall t_get t_set reply,
             snd (Cache.Get (cache w) t_get (Config.Symbol cfg)) = true ->
             exists apiResponse stockData,
               processAPIResponse ParseFloat cfg apiResponse = Ok stockData
               /\ GetStockData ParseFloat cfg t_get t_set reply w
                  = (Ok (Some stockData), w)).
  { intros t_get t_set reply Hfound.
    destruct (Cache.Get (cache w) t_get (Config.Symbol cfg)) as [v found] eqn:Hget.
    simpl in Hfound; subst found.
    rewrite (GetStockData_hit _ _ _ _ _ _ Hget).
    unfold Cache.Get in Hget.
    destruct (Cache.items (cache w) !! Config.Symbol cfg) as [item|] eqn:Hitem; [|done].
    destruct (Hinv _ _ Hitem) as (_ & resp & sd & Hproc & Hvalue).
    destruct (_ >? _); [done|]. injection Hget as <-.
    exists resp, sd. by rewrite Hvalue. }
  split; [done|]. split.
  - intros t_get t_set reply.
    destruct (Cache.Get (cache w) t_get (Config.Symbol cfg)) as [v [|]] eqn:Hget.
    + destruct (Hhit t_get t_set reply) as (resp & sd & _ & ->); [by rewrite Hget|done].
    + rewrite GetStockData_miss by (by rewrite Hget).
      destruct reply as [apiResponse|err]; simpl; [|done].
      destruct (processAPIResponse _ _ _) as [sd| |] eqn:Hproc; simpl; try done.
      apply processAPIResponse_Panic in Hproc as ->. done.
  - intros t_get t_set reply Hfound.
    destruct (Hhit t_get t_set reply Hfound) as (resp & sd & Hproc & Hcall).
    exists resp, sd.
    destruct (processAPIResponse_Ok cfg resp sd Hproc) as (_ & Hdates & _ & Hne & _).
    repeat split; try done. rewrite Hdates. apply retained_strictly_desc.
Qed.

(** C6. With a negative day count the slice expression of the truncation
    panics: on a miss the call ends in a run-time panic, whatever the
    payload, and not in the no-price-data error. *)
Theorem GetStockData_negative_days_panics cfg t_get t_set apiResponse w :
  Config.NDays cfg < 0 ->
  snd (Cache.Get (cache w) t_get (Config.Symbol cfg)) = false ->
  fst (GetStockData ParseFloat cfg t_get t_set (inl apiResponse) w)
  = Panic (SliceBoundsOutOfRange (Config.NDays cfg)
             (size (AlphaVantageResponse.TimeSeries apiResponse))).
Proof.
  intros Hneg Hmiss. rewrite GetStockData_miss by done; simpl.
  by rewrite processAPIResponse_negative.
Qed.

(** With a day count of zero no date is retained and the call fails with
    the no-price-data error. *)
Lemma GetStockData_zero_days cfg t_get t_set apiResponse w :
  Config.NDays cfg = 0 ->
  snd (Cache.Get (cache w) t_get (Config.Symbol cfg)) = false ->
  fst (GetStockData ParseFloat cfg t_get t_set (inl apiResponse) w)
  = Err (NoPriceData (Config.Symbol cfg)).
Proof.
  intros Hzero Hmiss. rewrite GetStockData_miss by done; simpl.
  rewrite processAPIResponse_no_data; [done|]. rewrite Hzero. lia.
Qed.

(** C5. Of the three dates 2023-01-01, -02 and -03 with closes 140.20,
    145.50 and 150.10, a request for two days returns the prices
    (2023-01-03, 150.10), (2023-01-02, 145.50), newest first, and the
    average 147.8, whenever the two retained closes parse to the nearest
    float64 numbers. *)
Theorem processAPIResponse_two_of_three cfg apiResponse :
  Config.NDays cfg = 2 ->
  AlphaVantageResponse.TimeSeries apiResponse = Fixtures.three_days ->
  ParseFloat "150.10" = inl Fixtures.f150_10 ->
  ParseFloat "145.50" = inl Fixtures.f145_50 ->
  processAPIResponse ParseFloat cfg apiResponse
  = Ok {| StockData.Symbol := Config.Symbol cfg;
          StockData.Prices :=
            [ {| StockPrice.Date := "2023-01-03"; StockPrice.Close := Fixtures.f150_10 |};
              {| StockPrice.Date := "2023-01-02"; StockPrice.Close := Fixtures.f145_50 |} ];
          StockData.Average := Fixtures.f147_8 |}.
Proof.
  intros Hdays Hts H150 H145.
  rewrite processAPIResponse_unfold, Hdays, Hts; simpl.
  replace (sorted_dates Fixtures.three_days)
    with ["2023-01-03"; "2023-01-02"; "2023-01-01"] by (by vm_compute).
  change (limit 2 ["2023-01-03"; "2023-01-02"; "2023-01-01"])
    with (@Ok (list string) ["2023-01-03"; "2023-01-02"]).
  unfold process_dates.
  replace (Fixtures.three_days !! "2023-01-03")
    with (Some (Fixtures.close_only "150.10")) by (by vm_compute).
  replace (Fixtures.three_days !! "2023-01-02")
    with (Some (Fixtures.close_only "145.50")) by (by vm_compute).
  simpl. rewrite H150, H145. simpl.
  reflexivity.
Qed.

End WithParseFloat.

End ServiceFacts.

(** ** The cache at concrete instants *)

Module CacheExamples.
Import Cache CacheFacts Fixtures.

Lemma Cleanup_preserves_Get_witness :
  let c := Set_ (Set_ New 0 "old" (Some 1%nat) 5) 0 "new" (Some 2%nat) 50 in
  Get (Cleanup c 10) 10 "old" = (None, false)
  /\ Get (Cleanup c 10) 10 "new" = (Some 2%nat, true).
Proof.
  intros c.
  rewrite (proj1 (Cleanup_preserves_Get nat c 10 "old")).
  rewrite (proj1 (Cleanup_preserves_Get nat c 10 "new")).
  split; reflexivity.
Defined.

(** C1 as stated fails: after [Set] with [ttl = 0] at instant 1000, a
    [Get] at the same instant returns the value and [true], although
    1000 is not strictly before the expiry 1000. *)
Lemma Get_visible_at_expiry_instant :
  let c := Set_ New 1000 "k" (Some 7%nat) 0 in
  Get c 1000 "k" = (Some 7%nat, true)
  /\ ~ (Get c 1000 "k" = (Some 7%nat, true) <-> 1000 < 1000 + 0)
  /\ snd (Get c 1000 "k") <> false.
Proof.
  intros c. split; [reflexivity|]. split.
  - intros [H _]. specialize (H eq_refl). lia.
  - discriminate.
Qed.

Lemma Get_visible_iff_not_after_expiry_witness :
  let c := Set_ New 1000 "k" (Some 7%nat) 0 in
  (Get c 1000 "k" = (Some 7%nat, true) <-> 1000 <= 1000 + 0)
  /\ (1000 + 0 < 1001 -> Get c 1001 "k" = (None, false)).
Proof.
  intros c.
  assert (H1 : Int64.in_range 1000) by (unfold Int64.in_range; vm_compute; split; discriminate).
  assert (H2 : Int64.in_range 1001) by (unfold Int64.in_range; vm_compute; split; discriminate).
  split.
  - exact (proj1 (proj2 (proj2 (proj2
      (Get_visible_iff_not_after_expiry nat New c "k" (Some 7%nat) 0 1000 1000
         H1 H1 eq_refl))))).
  - exact (proj1 (proj2 (proj2 (proj2 (proj2
      (Get_visible_iff_not_after_expiry nat New c "k" (Some 7%nat) 0 1000 1001
         H2 H1 eq_refl)))))).
Defined.

(** C7 as stated fails: with the longest duration as [ttl], the expiry
    instant computed in 2026 wraps around to a negative [int64], and a
    [Get] at the instant of the [Set] reports the entry absent. *)
Lemma Get_immediately_after_Set_overflow :
  0 < Time.MaxDuration
  /\ Get (Set_ New t2026 "k" (Some 7%nat) Time.MaxDuration) t2026 "k"
     = (None, false).
Proof. split; reflexivity. Qed.

Lemma Get_immediately_after_Set_witness :
  Get (Set_ New t2026 "k" (Some 7%nat) (15 * Time.Minute)) t2026 "k"
  = (Some 7%nat, true).
Proof.
  apply (Get_immediately_after_Set nat New "k" (Some 7%nat) (15 * Time.Minute) t2026).
  - reflexivity.
  - unfold Int64.in_range; vm_compute; split; discriminate.
  - unfold Int64.in_range; vm_compute; split; discriminate.
Defined.

(** C8 as stated fails: with the longest duration as [ttl], both expiry
    instants wrap around, and the [Get] that follows the two [Set]s at
    the same instant returns [(nil, false)], not [(v2, true)]. *)
Lemma Set_overwrites_overflow :
  0 < Time.MaxDuration
  /\ t2026 < t2026 + Time.MaxDuration
  /\ Get (Set_ (Set_ New t2026 "k" (Some 1%nat) Time.MaxDuration)
            t2026 "k" (Some 2%nat) Time.MaxDuration) t2026 "k"
     = (None, false).
Proof. repeat split; reflexivity. Qed.

Lemma Set_overwrites_witness :
  Get (Set_ (Set_ New 1000 "k" (Some 1%nat) 60) 1010 "k" (Some 2%nat) 60) 1020 "k"
  = (Some 2%nat, true).
Proof.
  apply (Set_overwrites nat New "k" (Some 1%nat) (Some 2%nat) 60 1000 1010 1020).
  - reflexivity.
  - unfold Int64.in_range; vm_compute; split; discriminate.
  - unfold Int64.in_range; vm_compute; split; discriminate.
  - reflexivity.
Defined.

End CacheExamples.

(** ** The service on the payloads of the specification and of the tests *)

Module ServiceExamples.
Import Models Service ServiceFacts Fixtures.

#[local] Set Warnings "-inexact-float".

Lemma in_range_t2026 (d : Z) :
  0 <= d <= 1000 * Time.Minute -> Int64.in_range (t2026 + d).
Proof.
  unfold Int64.in_range, Int64.min_int64, Int64.max_int64, t2026,
    Time.Minute, Time.Second, Time.Nanosecond. lia.
Qed.

(** The decimal fragment of the parser on the closes of the examples. *)
Example ParseFloat_decimal_150_10 : ParseFloat_decimal "150.10" = inl f150_10.
Proof. reflexivity. Qed.

Example ParseFloat_decimal_145_50 : ParseFloat_decimal "145.50" = inl f145_50.
Proof. reflexivity. Qed.

Example ParseFloat_decimal_invalid : ParseFloat_decimal "invalid" = inr ErrSyntax.
Proof. reflexivity. Qed.

(** The constant 147.8 is the correctly rounded quotient 1478 / 10. *)
Example f147_8_nearest :
  f147_8 = PrimFloat.div (PrimFloat.of_uint63 1478) (PrimFloat.of_uint63 10).
Proof. reflexivity. Qed.

(** The cases of [TestProcessAPIResponse]. *)
Example test_successful_processing :
  processAPIResponse ParseFloat_decimal (config "AAPL" 3) (response three_days)
  = Ok {| StockData.Symbol := "AAPL";
          StockData.Prices :=
            [ {| StockPrice.Date := "2023-01-03"; StockPrice.Close := 150.10%float |};
              {| StockPrice.Date := "2023-01-02"; StockPrice.Close := 145.50%float |};
              {| StockPrice.Date := "2023-01-01"; StockPrice.Close := 140.20%float |} ];
          StockData.Average := 145.26666666666668%float |}.
Proof. vm_compute. reflexivity. Qed.

Example test_limit_days_to_config :
  processAPIResponse ParseFloat_decimal (config "AAPL" 3) (response five_days)
  = Ok {| StockData.Symbol := "AAPL";
          StockData.Prices :=
            [ {| StockPrice.Date := "2023-01-05"; StockPrice.Close := 160.00%float |};
              {| StockPrice.Date := "2023-01-04"; StockPrice.Close := 155.75%float |};
              {| StockPrice.Date := "2023-01-03"; StockPrice.Close := 150.10%float |} ];
          StockData.Average := 155.28333333333333%float |}.
Proof. vm_compute. reflexivity. Qed.

(** A date cut off by the truncation is never parsed: its close may be
    anything. *)
Example truncated_date_not_parsed :
  processAPIResponse ParseFloat_decimal (config "AAPL" 2) (response oldest_invalid)
  = Ok two_newest.
Proof. vm_compute. reflexivity. Qed.

Example test_invalid_close_price :
  processAPIResponse ParseFloat_decimal (config "AAPL" 3) (response one_invalid)
  = Err (ParseCloseError "2023-01-03" ErrSyntax).
Proof. vm_compute. reflexivity. Qed.

Example test_no_price_data :
  processAPIResponse ParseFloat_decimal (config "AAPL" 3) (response ∅)
  = Err (NoPriceData "AAPL").
Proof. vm_compute. reflexivity. Qed.

Lemma processAPIResponse_two_of_three_witness :
  processAPIResponse ParseFloat_decimal (config "AAPL" 2) (response three_days)
  = Ok two_newest.
Proof.
  apply (processAPIResponse_two_of_three ParseFloat_decimal
           (config "AAPL" 2) (response three_days)); reflexivity.
Defined.

(** Two available dates, five requested: both are returned. *)
Lemma processAPIResponse_sorted_truncated_witness :
  exists stockData,
    processAPIResponse ParseFloat_decimal (config "AAPL" 5) (response two_days)
    = Ok stockData
    /\ StockPrice.Date <$> StockData.Prices stockData = ["2023-01-03"; "2023-01-02"].
Proof.
  destruct (processAPIResponse_sorted_truncated ParseFloat_decimal
              (config "AAPL" 5) (response two_days)) as (_ & Hall & _).
  apply Hall.
  - vm_compute. split; [reflexivity|discriminate].
  - change (sorted_dates (AlphaVantageResponse.TimeSeries (response two_days)))
      with ["2023-01-03"; "2023-01-02"].
    repeat constructor; eexists; vm_compute; reflexivity.
Defined.

Lemma GetStockData_failure_atomic_witness :
  let out := GetStockData ParseFloat_decimal (config "AAPL" 3) t2026 t2026
               (inl (response one_invalid)) stale_world in
  fst out = Err (ParseCloseError "2023-01-03" ErrSyntax)
  /\ cache (snd out) = cache stale_world.
Proof.
  destruct (GetStockData_failure_atomic ParseFloat_decimal (config "AAPL" 3)
              t2026 t2026 (inl (response one_invalid)) stale_world)
    as (_ & _ & Hparse & _).
  apply (Hparse eq_refl (response one_invalid) "2023-01-03" ErrSyntax eq_refl).
  - simpl. lia.
  - change (take (Z.to_nat (Config.NDays (config "AAPL" 3)))
              (sorted_dates (AlphaVantageResponse.TimeSeries (response one_invalid))))
      with ["2023-01-03"; "2023-01-02"].
    apply elem_of_cons. by left.
  - reflexivity.
  - change (take (Z.to_nat (Config.NDays (config "AAPL" 3)))
              (sorted_dates (AlphaVantageResponse.TimeSeries (response one_invalid))))
      with ["2023-01-03"; "2023-01-02"].
    intros d Hd Hne.
    apply elem_of_cons in Hd as [->|Hd]; [done|].
    apply list_elem_of_singleton in Hd as ->.
    eexists. vm_compute. reflexivity.
Defined.

Lemma GetStockData_miss_then_hit_witness :
  fetches filled_world = [("AAPL", 2)]
  /\ GetStockData ParseFloat_decimal (config "AAPL" 2)
       (t2026 + 5 * Time.Minute) (t2026 + 5 * Time.Minute)
       (inr (ClientError "unreachable")) filled_world
     = (Ok (Some two_newest), filled_world).
Proof.
  destruct (GetStockData_miss_then_hit ParseFloat_decimal (config "AAPL" 2) []
              t2026 (t2026 + Time.Second)
              (t2026 + 5 * Time.Minute) (t2026 + 5 * Time.Minute)
              (inl (response three_days)) (inr (ClientError "unreachable"))
              (Some two_newest) filled_world)
    as (_ & Hlog & _ & Hhit).
  - reflexivity.
  - rewrite <- Z.add_assoc. apply in_range_t2026.
    unfold cacheDuration, Time.Minute, Time.Second, Time.Nanosecond. lia.
  - apply in_range_t2026. unfold Time.Minute, Time.Second, Time.Nanosecond. lia.
  - unfold cacheDuration, Time.Minute, Time.Second, Time.Nanosecond. lia.
  - split; [exact Hlog|exact Hhit].
Defined.

Lemma reachable_type_assertion_safe_witness :
  fst (GetStockData ParseFloat_decimal (config "AAPL" 2)
         (t2026 + 5 * Time.Minute) (t2026 + 5 * Time.Minute)
         (inr (ClientError "unreachable")) filled_world)
  <> Panic InterfaceConversion.
Proof.
  apply (reachable_type_assertion_safe ParseFloat_decimal (config "AAPL" 2) filled_world).
  unfold filled_world. apply reachable_call, reachable_initial.
Defined.

(** C6 at a concrete input: with [NDays = -1] the call panics. *)
Lemma GetStockData_negative_days_panics_witness :
  fst (GetStockData ParseFloat_decimal (config "AAPL" (-1)) t2026 t2026
         (inl (response three_days)) initial)
  = Panic (SliceBoundsOutOfRange (-1) 3).
Proof.
  apply (GetStockData_negative_days_panics ParseFloat_decimal (config "AAPL" (-1))
           t2026 t2026 (response three_days) initial); reflexivity.
Defined.

Example GetStockData_zero_days_example :
  fst (GetStockData ParseFloat_decimal (config "AAPL" 0) t2026 t2026
         (inl (response three_days)) initial)
  = Err (NoPriceData "AAPL").
Proof. vm_compute. reflexivity. Qed.

End ServiceExamples.

(** ** More on the cache: deletion, sweeping and the passing of time *)

Module CacheLaws.
Import Cache CacheFacts.

Section WithValue.

Variable V : Type.
Implicit Types (c : Cache V) (item : Item V) (value : option V).

Lemma Cache_eq c c' : items c = items c' -> c = c'.
Proof. destruct c, c'; simpl. by intros ->. Qed.

Lemma wrap_overflow (z : Z) :
  Int64.max_int64 < z <= 2 * Int64.max_int64 -> Int64.wrap z = z - 2 ^ 64.
Proof.
  unfold Int64.wrap, Int64.max_int64. intros Hz.
  replace (z + 2 ^ 63) with ((z - 2 ^ 63) + 1 * 2 ^ 64) by lia.
  rewrite Z_mod_plus_full, Z.mod_small; lia.
Qed.

(** X1. After [Delete] the key is absent at every instant, every other
    key answers as before, and deleting a key that is not stored leaves
    the cache as it is. *)
Theorem Delete_forgets_only_key c now key :
  Get (Delete c key) now key = (None, false)
  /\ (forall key', key' <> key -> Get (Delete c key) now key' = Get c now key')
  /\ (items c !! key = None -> Delete c key = c).
Proof.
  split; [|split].
  - apply Get_absent. simpl. apply lookup_delete_eq.
  - intros key' Hne. apply Get_ext. simpl. by apply lookup_delete_ne.
  - intros Habsent. apply Cache_eq. simpl. by apply delete_id.
Qed.

(** X2. [Set] touches one key only: every other key answers as before;
    and a [Delete] of the key undoes it, giving back the cache itself
    when the key was not stored before. *)
Theorem Set_then_Delete c now key value duration :
  (forall now' key', key' <> key ->
      Get (Set_ c now key value duration) now' key' = Get c now' key')
  /\ Delete (Set_ c now key value duration) key = Delete c key
  /\ (items c !! key = None -> Delete (Set_ c now key value duration) key = c).
Proof.
  split; [|split].
  - intros now' key' Hne. apply Get_ext. by apply Set_lookup_ne.
  - apply Cache_eq. simpl. apply delete_insert_eq.
  - intros Habsent. apply Cache_eq. simpl.
    rewrite delete_insert_eq. by apply delete_id.
Qed.

(** X3. [Cleanup] keeps exactly the entries that are not expired at its
    instant, each as it was: the loop that deletes while ranging computes
    a filter of the map. *)
Theorem Cleanup_is_filter c now :
  items (Cleanup c now)
  = filter (fun kv => Time.UnixNano now <= Expiration kv.2) (items c).
Proof.
  apply map_eq. intros key. rewrite Cleanup_lookup, map_lookup_filter.
  destruct (items c !! key) as [item|]; simpl; [|done].
  destruct (Z.gtb_spec (Time.UnixNano now) (Expiration item)).
  - rewrite option_guard_False; [done|lia].
  - by rewrite option_guard_True.
Qed.

(** X4. [Cleanup] never adds or alters an entry, a second sweep at the
    same instant changes nothing, and a sweep changes nothing at all
    exactly when no stored entry is expired. *)
Theorem Cleanup_shrinks_idempotent c now :
  items (Cleanup c now) ⊆ items c
  /\ Cleanup (Cleanup c now) now = Cleanup c now
  /\ (Cleanup c now = c
      <-> forall key item, items c !! key = Some item ->
                           Time.UnixNano now <= Expiration item).
Proof.
  split; [|split].
  - apply map_subseteq_spec. intros key item. rewrite Cleanup_lookup.
    destruct (items c !! key) as [item'|]; [|done].
    by destruct (_ >? _).
  - apply Cache_eq, map_eq. intros key. rewrite !Cleanup_lookup.
    destruct (items c !! key) as [item|]; [|done].
    destruct (Time.UnixNano now >? Expiration item) eqn:Hexp; [done|].
    by rewrite Hexp.
  - split.
    + intros Hsame key item Hk. rewrite <- Hsame, Cleanup_lookup in Hk.
      destruct (items c !! key) as [item'|]; [|done].
      destruct (Z.gtb_spec (Time.UnixNano now) (Expiration item')); [done|].
      injection Hk as <-. lia.
    + intros Hfresh. apply Cache_eq, map_eq. intros key. rewrite Cleanup_lookup.
      destruct (items c !! key) as [item|] eqn:Hk; [|done].
      specialize (Hfresh _ _ Hk).
      destruct (Z.gtb_spec (Time.UnixNano now) (Expiration item)); [lia|done].
Qed.

(** X5. A sweep changes no later answer either: for instants [t <= t']
    in the range of the clock, [Get] at [t'] answers the same whether or
    not [Cleanup] ran at [t]. *)
Theorem Cleanup_invisible_later c t t' key :
  Int64.in_range t ->
  Int64.in_range t' ->
  t <= t' ->
  Get (Cleanup c t) t' key = Get c t' key.
Proof.
  intros Ht Ht' Hle. unfold Get. rewrite Cleanup_lookup.
  unfold Time.UnixNano. rewrite !Int64Facts.wrap_in_range by done.
  destruct (items c !! key) as [item|]; [|done].
  destruct (Z.gtb_spec t (Expiration item)) as [Hexp|Hfresh]; [|done].
  destruct (Z.gtb_spec t' (Expiration item)); [done|lia].
Qed.

(** X6. Expiry is permanent while the cache is not written: once [Get]
    reports a key absent it reports it absent at every later instant, and
    a value returned at some instant was returned at every earlier one. *)
Theorem Get_expiry_monotone c t t' key :
  Int64.in_range t ->
  Int64.in_range t' ->
  t <= t' ->
  (snd (Get c t key) = false -> Get c t' key = (None, false))
  /\ (forall value, Get c t' key = (value, true) -> Get c t key = (value, true)).
Proof.
  intros Ht Ht' Hle.
  destruct (items c !! key) as [item|] eqn:Hk.
  - rewrite !(Get_present _ _ _ _ _ Hk) by done.
    destruct (Z.gtb_spec t (Expiration item)), (Z.gtb_spec t' (Expiration item));
      simpl; split; try done; try lia.
  - rewrite !(Get_absent _ _ _ _ Hk). by split.
Qed.

(** X7. For a positive duration the entry written by [Set] is returned by
    a [Get] at the same instant exactly when the expiry instant fits an
    [int64]: past that the stored expiry has wrapped around to an instant
    before [now]. *)
Theorem Set_visible_iff_no_overflow c now key value ttl :
  Int64.in_range now ->
  0 < ttl <= Time.MaxDuration ->
  (Get (Set_ c now key value ttl) now key = (value, true)
   <-> now + ttl <= Int64.max_int64)
  /\ (Int64.max_int64 < now + ttl ->
      Get (Set_ c now key value ttl) now key = (None, false)).
Proof.
  intros Hnow Httl.
  assert (Hmax : Int64.max_int64 = 2 ^ 63 - 1) by done.
  assert (Hmin : Int64.min_int64 = - 2 ^ 63) by done.
  unfold Time.MaxDuration in Httl. destruct Hnow as [Hlo Hhi].
  rewrite (Get_present _ _ _ _ _ (Set_lookup_eq _ _ _ _ _ _)) by done; simpl.
  unfold Time.UnixNano, Time.Add.
  destruct (Z.le_gt_cases (now + ttl) Int64.max_int64) as [Hfit|Hover].
  - rewrite Int64Facts.wrap_in_range by (split; lia).
    destruct (Z.gtb_spec now (now + ttl)); [lia|]. split; [done|lia].
  - rewrite wrap_overflow by lia.
    destruct (Z.gtb_spec now (now + ttl - 2 ^ 64)); [|lia].
    split; [|done]. split; [done|lia].
Qed.

End WithValue.

End CacheLaws.

(** ** More on the service: what the transform keeps, reads and reports *)

Module ServiceLaws.
Import Models Service ServiceFacts.

Lemma ltb_asym (a b : string) : String.ltb a b = true -> String.ltb b a = false.
Proof.
  unfold String.ltb. rewrite (String.compare_antisym b a).
  by destruct (String.compare a b).
Qed.

Lemma ltb_irrefl (a : string) : String.ltb a a = false.
Proof. unfold String.ltb. by rewrite StringOrder.compare_refl. Qed.

Lemma close_of_fmap (ts : gmap string DailyPrice.t) (date : string) :
  close_of ts date = default "" ((DailyPrice.Close <$> ts) !! date).
Proof. unfold close_of. rewrite lookup_fmap. by destruct (ts !! date). Qed.

Lemma sorted_dates_fmap (ts ts' : gmap string DailyPrice.t) :
  DailyPrice.Close <$> ts = DailyPrice.Close <$> ts' ->
  sorted_dates ts = sorted_dates ts'.
Proof.
  intros Hclose. unfold sorted_dates. f_equal.
  assert (Hkeys : forall m : gmap string DailyPrice.t,
             (map_to_list m).*1 = (map_to_list (DailyPrice.Close <$> m)).*1).
  { intros m. rewrite map_to_list_fmap, <- list_fmap_compose.
    apply list_fmap_ext. by intros _ [k p] _. }
  by rewrite (Hkeys ts), (Hkeys ts'), Hclose.
Qed.

Section WithParseFloat.

Variable ParseFloat : string -> float + NumError.

Lemma process_dates_ext ts ts' dates prices0 total0 :
  (forall date, close_of ts date = close_of ts' date) ->
  process_dates ParseFloat ts dates prices0 total0
  = process_dates ParseFloat ts' dates prices0 total0.
Proof.
  intros Hclose. revert prices0 total0.
  induction dates as [|date rest IH]; intros prices0 total0; simpl; [done|].
  fold (close_of ts date) (close_of ts' date). rewrite Hclose.
  destruct (ParseFloat _); [apply IH|done].
Qed.

(** The newest retained date that does not parse, if there is one. *)
Lemma first_failure ts (dates : list string) :
  Forall (parses ParseFloat ts) dates
  \/ exists good date rest cause,
       dates = good ++ date :: rest
       /\ Forall (parses ParseFloat ts) good
       /\ ParseFloat (close_of ts date) = inr cause.
Proof.
  induction dates as [|d dates IH]; [by left|].
  destruct (ParseFloat (close_of ts d)) as [f|cause] eqn:Hd.
  - destruct IH as [Hall|(good & date & rest & cause & -> & Hgood & Hbad)].
    + left. constructor; [by exists f|done].
    + right. exists (d :: good), date, rest, cause.
      repeat split; try done. constructor; [by exists f|done].
  - right. by exists [], d, dates, cause.
Qed.

Lemma processAPIResponse_nonneg_not_Panic cfg apiResponse p :
  0 <= Config.NDays cfg ->
  processAPIResponse ParseFloat cfg apiResponse <> Panic p.
Proof.
  intros Hnn. rewrite processAPIResponse_unfold; simpl. rewrite limit_nonneg by done.
  destruct (process_dates _ _ _ _ _) as [[prices total]| |] eqn:Hloop.
  - by destruct (_ =? _)%nat.
  - done.
  - by apply process_dates_not_Panic in Hloop.
Qed.

(** X8. The transform keeps the newest dates: every available date that
    is not in the result is strictly older than every date in it. *)
Theorem processAPIResponse_keeps_newest cfg apiResponse stockData kept dropped :
  processAPIResponse ParseFloat cfg apiResponse = Ok stockData ->
  kept ∈ StockPrice.Date <$> StockData.Prices stockData ->
  is_Some (AlphaVantageResponse.TimeSeries apiResponse !! dropped) ->
  dropped ∉ StockPrice.Date <$> StockData.Prices stockData ->
  String.ltb dropped kept = true.
Proof.
  intros (_ & Hdates & _)%processAPIResponse_Ok Hkept Havail Hdropped.
  set (ts := AlphaVantageResponse.TimeSeries apiResponse) in *.
  set (n := Z.to_nat (Config.NDays cfg)) in *.
  rewrite Hdates in Hkept, Hdropped.
  apply sorted_dates_elem_of in Havail.
  rewrite <- (take_drop n (sorted_dates ts)) in Havail.
  apply elem_of_app in Havail as [Hin|Hin]; [done|].
  apply (StronglySorted_app_1_elem_of strictly_desc
           (take n (sorted_dates ts)) (drop n (sorted_dates ts))); try done.
  rewrite take_drop. apply sorted_dates_strictly_desc.
Qed.

(** X9. Every price of a result comes from the payload: its date is a
    key of the time series, listed once, and its close is the parsed close
    field of that date; the symbol is the configured one and the average
    is the sum of the closes, added from the newest on, divided by their
    number. *)
Theorem processAPIResponse_prices_from_payload cfg apiResponse stockData :
  processAPIResponse ParseFloat cfg apiResponse = Ok stockData ->
  let prices := StockData.Prices stockData in
  NoDup (StockPrice.Date <$> prices)
  /\ (forall p, p ∈ prices ->
        exists dailyPrice,
          AlphaVantageResponse.TimeSeries apiResponse !! StockPrice.Date p
          = Some dailyPrice
          /\ ParseFloat (DailyPrice.Close dailyPrice) = inl (StockPrice.Close p))
  /\ StockData.Symbol stockData = Config.Symbol cfg
  /\ StockData.Average stockData
     = PrimFloat.div
         (fold_left PrimFloat.add (StockPrice.Close <$> prices) PrimFloat.zero)
         (float64_of_len (length prices)).
Proof.
  intros (_ & Hdates & Hparsed & _ & Hsymbol & Haverage)%processAPIResponse_Ok prices.
  set (ts := AlphaVantageResponse.TimeSeries apiResponse) in *.
  split; [|split; [|done]].
  - fold prices in Hdates. rewrite Hdates.
    apply (sublist_NoDup _ (sorted_dates ts)); [|apply sublist_take].
    apply sorted_dates_NoDup.
  - intros p Hp. rewrite Forall_forall in Hparsed. specialize (Hparsed p Hp).
    assert (Hin : StockPrice.Date p ∈ sorted_dates ts).
    { apply (subseteq_take (Z.to_nat (Config.NDays cfg))). rewrite <- Hdates.
      apply list_elem_of_fmap. by exists p. }
    apply sorted_dates_elem_of in Hin as [dailyPrice Hlookup].
    exists dailyPrice. split; [done|].
    unfold close_of in Hparsed. by rewrite Hlookup in Hparsed.
Qed.

(** X10. Fail-fast from the newest date on: when some retained date has a
    close that does not parse, the transform fails with the parse error of
    the newest such date, every retained date newer than it being
    valid. *)
Theorem processAPIResponse_reports_newest_failure cfg apiResponse bad :
  let ts := AlphaVantageResponse.TimeSeries apiResponse in
  let retained := take (Z.to_nat (Config.NDays cfg)) (sorted_dates ts) in
  0 <= Config.NDays cfg ->
  bad ∈ retained ->
  ~ parses ParseFloat ts bad ->
  exists date cause,
    processAPIResponse ParseFloat cfg apiResponse = Err (ParseCloseError date cause)
    /\ date ∈ retained
    /\ ParseFloat (close_of ts date) = inr cause
    /\ (forall newer, newer ∈ retained -> String.ltb date newer = true ->
                      parses ParseFloat ts newer).
Proof.
  intros ts retained Hnn Hbad Hnot.
  destruct (first_failure ts retained)
    as [Hall|(good & date & rest & cause & Hsplit & Hgood & Hcause)].
  { rewrite Forall_forall in Hall. by destruct (Hnot (Hall bad Hbad)). }
  exists date, cause. split; [|split; [|split]].
  - by apply (processAPIResponse_parse_fail ParseFloat cfg apiResponse good date rest).
  - rewrite Hsplit. apply elem_of_app. right. apply elem_of_cons. by left.
  - done.
  - intros newer Hnewer Hlt. rewrite Hsplit in Hnewer.
    apply elem_of_app in Hnewer as [Hin|Hin].
    { rewrite Forall_forall in Hgood. by apply Hgood. }
    apply elem_of_cons in Hin as [->|Hin].
    { by rewrite ltb_irrefl in Hlt. }
    assert (Hsorted : StronglySorted strictly_desc (good ++ date :: rest)).
    { rewrite <- Hsplit. apply retained_strictly_desc. }
    apply StronglySorted_app_1_r, StronglySorted_inv in Hsorted as [_ Hall].
    rewrite Forall_forall in Hall. specialize (Hall newer Hin).
    unfold strictly_desc in Hall. apply ltb_asym in Hall. congruence.
Qed.

(** X11. The transform reads the dates and the close fields only: two
    payloads with the same close under the same dates give the same
    outcome, whatever their open, high, low, volume and meta data. *)
Theorem processAPIResponse_reads_close_only cfg apiResponse apiResponse' :
  DailyPrice.Close <$> AlphaVantageResponse.TimeSeries apiResponse
  = DailyPrice.Close <$> AlphaVantageResponse.TimeSeries apiResponse' ->
  processAPIResponse ParseFloat cfg apiResponse
  = processAPIResponse ParseFloat cfg apiResponse'.
Proof.
  intros Hclose. rewrite !processAPIResponse_unfold; simpl.
  rewrite (sorted_dates_fmap _ _ Hclose).
  destruct (limit _ _) as [dates| |]; try done.
  rewrite (process_dates_ext _ (AlphaVantageResponse.TimeSeries apiResponse')); [done|].
  intros date. by rewrite !close_of_fmap, Hclose.
Qed.

(** X12. The transform returns a result exactly when a positive number
    of days is requested, the time series is not empty and the close of
    every retained date parses. *)
Theorem processAPIResponse_succeeds_iff cfg apiResponse :
  let ts := AlphaVantageResponse.TimeSeries apiResponse in
  (exists stockData, processAPIResponse ParseFloat cfg apiResponse = Ok stockData)
  <-> 0 < Config.NDays cfg
      /\ ts <> ∅
      /\ Forall (parses ParseFloat ts)
           (take (Z.to_nat (Config.NDays cfg)) (sorted_dates ts)).
Proof.
  intros ts. split.
  - intros [stockData (Hnn & Hdates & Hparsed & Hne & _)%processAPIResponse_Ok].
    fold ts in Hdates, Hparsed.
    assert (Hlen : length (StockPrice.Date <$> StockData.Prices stockData) <> 0%nat).
    { rewrite length_fmap. by intros ?%length_zero_iff_nil. }
    rewrite Hdates, length_take, sorted_dates_length in Hlen.
    split; [lia|]. split.
    + intros Hempty. rewrite Hempty, map_size_empty in Hlen. lia.
    + rewrite <- Hdates. apply Forall_fmap.
      eapply Forall_impl; [exact Hparsed|]. intros p Hp. by exists (StockPrice.Close p).
  - intros (Hpos & Hne & Hall). by apply processAPIResponse_succeeds.
Qed.

Lemma GetStockData_fetch_log cfg t_get t_set reply w :
  fetches (snd (GetStockData ParseFloat cfg t_get t_set reply w))
  = if snd (Cache.Get (cache w) t_get (Config.Symbol cfg)) then fetches w
    else fetches w ++ [(Config.Symbol cfg, Config.NDays cfg)].
Proof.
  destruct (Cache.Get (cache w) t_get (Config.Symbol cfg)) as [v [|]] eqn:Hget.
  - by rewrite (GetStockData_hit _ _ _ _ _ _ _ Hget).
  - rewrite GetStockData_miss by (by rewrite Hget). simpl.
    destruct reply as [apiResponse|err]; [|done].
    by destruct (processAPIResponse _ _ _).
Qed.

(** X13. A call consults the client at most once, with the configured
    symbol and day count, and exactly when the cache lookup misses; an
    entry that is present but expired counts as a miss. *)
Theorem GetStockData_fetches cfg t_get t_set reply w :
  let out := GetStockData ParseFloat cfg t_get t_set reply w in
  fetches (snd out)
  = (if snd (Cache.Get (cache w) t_get (Config.Symbol cfg)) then fetches w
     else fetches w ++ [(Config.Symbol cfg, Config.NDays cfg)])
  /\ (forall item,
        Cache.items (cache w) !! Config.Symbol cfg = Some item ->
        Int64.in_range t_get ->
        Cache.Expiration item < t_get ->
        fetches (snd out) = fetches w ++ [(Config.Symbol cfg, Config.NDays cfg)]).
Proof.
  intros out. pose proof (GetStockData_fetch_log cfg t_get t_set reply w) as Hlog.
  split; [done|]. intros item Hitem Hrange Hexpired. subst out. rewrite Hlog.
  rewrite (CacheFacts.Get_present _ _ _ _ _ Hitem) by done.
  destruct (Z.gtb_spec t_get (Cache.Expiration item)); [done|lia].
Qed.

(** X14. A call writes under the symbol only: every other key of the
    cache keeps its entry; a hit leaves the whole world as it is; and a
    miss that returns a result stores exactly that result, to expire 15
    minutes after the instant of the write. *)
Theorem GetStockData_writes_only_symbol cfg t_get t_set reply w :
  let out := GetStockData ParseFloat cfg t_get t_set reply w in
  let found := snd (Cache.Get (cache w) t_get (Config.Symbol cfg)) in
  (forall key, key <> Config.Symbol cfg ->
      Cache.items (cache (snd out)) !! key = Cache.items (cache w) !! key)
  /\ (found = true -> snd out = w)
  /\ (forall p, found = false -> fst out = Ok p ->
        Cache.items (cache (snd out)) !! Config.Symbol cfg
        = Some {| Cache.Value := Some (StockDataPtr p);
                  Cache.Expiration := Time.UnixNano (t_set + cacheDuration) |}).
Proof.
  intros out found. split; [|split].
  - intros key Hne. subst out.
    destruct (GetStockData_cache ParseFloat cfg t_get t_set reply w)
      as [->|(resp & sd & _ & _ & _ & _ & ->)]; [done|].
    by rewrite CacheFacts.Set_lookup_ne.
  - subst out found. intros Hfound.
    destruct (Cache.Get (cache w) t_get (Config.Symbol cfg)) as [v b] eqn:Hget.
    simpl in Hfound; subst b. by rewrite (GetStockData_hit _ _ _ _ _ _ _ Hget).
  - subst out found. intros p Hmiss. rewrite GetStockData_miss by done. simpl.
    destruct reply as [apiResponse|err]; [|done].
    destruct (processAPIResponse _ _ _) as [sd| |]; try done.
    intros [= <-]. cbn [snd cache]. by rewrite CacheFacts.Set_lookup_eq.
Qed.

(** In a reachable world, under a day count that is not negative, a call
    ends with a result behind a pointer that is not nil, or with an
    error. *)
Lemma reachable_call_outcome cfg w t_get t_set reply :
  0 <= Config.NDays cfg ->
  reachable ParseFloat cfg w ->
  (exists stockData,
      fst (GetStockData ParseFloat cfg t_get t_set reply w) = Ok (Some stockData))
  \/ (exists err, fst (GetStockData ParseFloat cfg t_get t_set reply w) = Err err).
Proof.
  intros Hnn Hinv%reachable_cache_inv.
  destruct (Cache.Get (cache w) t_get (Config.Symbol cfg)) as [v [|]] eqn:Hget.
  - rewrite (GetStockData_hit _ _ _ _ _ _ _ Hget). simpl.
    unfold Cache.Get in Hget.
    destruct (Cache.items (cache w) !! Config.Symbol cfg) as [item|] eqn:Hitem; [|done].
    destruct (Hinv _ _ Hitem) as (_ & resp & sd & _ & Hvalue).
    destruct (_ >? _); [done|]. injection Hget as <-. rewrite Hvalue.
    left. by exists sd.
  - rewrite GetStockData_miss by (by rewrite Hget). simpl.
    destruct reply as [apiResponse|err]; [|right; by exists err].
    destruct (processAPIResponse _ _ _) as [sd|err|p] eqn:Hproc; simpl.
    + left. by exists sd.
    + right. by exists err.
    + by apply processAPIResponse_nonneg_not_Panic in Hproc.
Qed.

(** X15. With a day count that is not negative, no call made in a world
    reached by [GetStockData] alone panics, and a call that returns
    without error returns a pointer that is not nil. *)
Theorem GetStockData_never_panics cfg w t_get t_set reply :
  0 <= Config.NDays cfg ->
  reachable ParseFloat cfg w ->
  (forall p, fst (GetStockData ParseFloat cfg t_get t_set reply w) <> Panic p)
  /\ fst (GetStockData ParseFloat cfg t_get t_set reply w) <> Ok None.
Proof.
  intros Hnn Hreach.
  destruct (reachable_call_outcome cfg w t_get t_set reply Hnn Hreach)
    as [[sd ->]|[err ->]]; by split.
Qed.

Lemma processAPIResponse_NoPriceData cfg apiResponse symbol :
  processAPIResponse ParseFloat cfg apiResponse = Err (NoPriceData symbol) ->
  Z.min (Config.NDays cfg)
    (Z.of_nat (size (AlphaVantageResponse.TimeSeries apiResponse))) = 0.
Proof.
  destruct (Z.lt_ge_cases (Config.NDays cfg) 0) as [Hneg|Hnn].
  { by rewrite processAPIResponse_negative. }
  rewrite processAPIResponse_unfold; simpl. rewrite limit_nonneg by done.
  destruct (process_dates _ _ _ _ _) as [[prices total]| |] eqn:Hloop; [| |done].
  - apply process_dates_Ok in Hloop as (new & -> & Hdates & _). simpl.
    destruct (Nat.eqb_spec (length new) 0) as [Hlen|]; [|done]. intros _.
    apply (f_equal length) in Hdates.
    rewrite length_fmap, length_take, sorted_dates_length in Hdates. lia.
  - destruct (first_failure (AlphaVantageResponse.TimeSeries apiResponse)
                (take (Z.to_nat (Config.NDays cfg))
                   (sorted_dates (AlphaVantageResponse.TimeSeries apiResponse))))
      as [Hall|(good & date & rest & cause & Hsplit & Hgood & Hcause)].
    + destruct (process_dates_parses ParseFloat _ _ [] PrimFloat.zero Hall)
        as (prices & total & Hok). congruence.
    + rewrite Hsplit, (process_dates_fail ParseFloat _ good date rest cause) in Hloop
        by done. by injection Hloop as <-.
Qed.

(** X24. The transform fails with the no-price-data error exactly when no
    date is retained, that is when zero days are requested or the time
    series is empty; the error carries the configured symbol. *)
Theorem processAPIResponse_NoPriceData_iff cfg apiResponse symbol :
  processAPIResponse ParseFloat cfg apiResponse = Err (NoPriceData symbol)
  <-> symbol = Config.Symbol cfg
      /\ (Config.NDays cfg = 0
          \/ 0 < Config.NDays cfg /\ AlphaVantageResponse.TimeSeries apiResponse = ∅).
Proof.
  split.
  - intros Herr. pose proof (processAPIResponse_NoPriceData _ _ _ Herr) as Hmin.
    rewrite processAPIResponse_no_data in Herr by done. injection Herr as <-.
    split; [done|].
    destruct (decide (Config.NDays cfg = 0)) as [|Hne]; [by left|right].
    assert (Hsize : size (AlphaVantageResponse.TimeSeries apiResponse) = 0%nat) by lia.
    split; [lia|]. by apply map_size_empty_inv.
  - intros [-> Hnone]. apply processAPIResponse_no_data.
    destruct Hnone as [->|[Hpos ->]]; [lia|]. rewrite map_size_empty. lia.
Qed.

(** X25. A service works with one cache entry and one kind of request:
    in every world reached by [GetStockData] alone the cache holds at most
    one entry, under the symbol, and every call logged for the client
    carries the configured symbol and day count. *)
Theorem reachable_single_entry cfg w :
  reachable ParseFloat cfg w ->
  (size (Cache.items (cache w)) <= 1)%nat
  /\ (forall key, is_Some (Cache.items (cache w) !! key) -> key = Config.Symbol cfg)
  /\ Forall (fun call => call = (Config.Symbol cfg, Config.NDays cfg)) (fetches w).
Proof.
  intros Hreach.
  assert (Hkeys : forall key, is_Some (Cache.items (cache w) !! key) ->
                              key = Config.Symbol cfg).
  { intros key [item Hitem].
    by destruct (reachable_cache_inv ParseFloat cfg w Hreach key item Hitem). }
  split; [|split; [done|]].
  - destruct (Cache.items (cache w) !! Config.Symbol cfg) as [item|] eqn:Hsym.
    + assert (Cache.items (cache w) = {[Config.Symbol cfg := item]}) as ->.
      { apply map_eq. intros key. destruct (decide (key = Config.Symbol cfg)) as [->|Hne].
        - by rewrite lookup_singleton_eq.
        - rewrite lookup_singleton_ne by done.
          destruct (Cache.items (cache w) !! key) eqn:Hkey; [|done].
          destruct Hne. apply Hkeys. by rewrite Hkey. }
      by rewrite map_size_singleton.
    + assert (Cache.items (cache w) = ∅) as ->.
      { apply map_eq. intros key. rewrite lookup_empty.
        destruct (Cache.items (cache w) !! key) eqn:Hkey; [|done].
        assert (Heq : key = Config.Symbol cfg).
        { apply Hkeys. by rewrite Hkey. }
        subst key. congruence. }
      rewrite map_size_empty. lia.
  - clear Hkeys. induction Hreach as [|w t_get t_set reply _ IH]; [constructor|].
    rewrite GetStockData_fetch_log. destruct (snd _); [done|].
    apply Forall_app. split; [done|]. by constructor.
Qed.

End WithParseFloat.

End ServiceLaws.

(** ** The configuration read from the environment *)

Module ConfigLaws.
Import Models Service ServiceFacts ConfigEnv.

Lemma Getenv_insert_ne env key key' value :
  key <> key' -> Getenv (<[key := value]> env) key' = Getenv env key'.
Proof. intros Hne. unfold Getenv. by rewrite lookup_insert_ne. Qed.

Lemma Getenv_delete_ne env key key' :
  key <> key' -> Getenv (delete key env) key' = Getenv env key'.
Proof. intros Hne. unfold Getenv. by rewrite lookup_delete_ne. Qed.

Lemma Getenv_empty_value env key key' :
  Getenv (<[key := ""]> env) key' = Getenv (delete key env) key'.
Proof.
  unfold Getenv. destruct (decide (key = key')) as [->|Hne].
  - by rewrite lookup_insert_eq, lookup_delete_eq.
  - by rewrite lookup_insert_ne, lookup_delete_ne.
Qed.

Section WithStrconv.

Variable Atoi : string -> Z + NumError.
Variable Itoa : Z -> string.

(** [New] is a function of the four variables it reads. *)
Lemma New_ext env env' :
  (forall key, key ∈ ["PORT"; "API_KEY"; "SYMBOL"; "N_DAYS"] ->
               Getenv env key = Getenv env' key) ->
  New Atoi Itoa env = New Atoi Itoa env'.
Proof.
  intros Hsame. unfold New, getEnvOrDefault.
  rewrite !(Hsame "PORT"), !(Hsame "API_KEY"), !(Hsame "SYMBOL"), !(Hsame "N_DAYS");
    [done|set_solver..].
Qed.

(** X16. A configuration returned by [New] has an API key, a port and a
    symbol that are not empty, the key being the one of the environment,
    and the day count that [N_DAYS] (or the default numeral) parses to,
    whatever its sign; [New] fails exactly when that numeral does not
    parse or, it being valid, the API key is empty. *)
Theorem New_outcomes env :
  (forall cfg, New Atoi Itoa env = inl cfg ->
      Config.APIKey cfg = Getenv env "API_KEY"
      /\ Config.APIKey cfg <> ""
      /\ Config.Port cfg <> ""
      /\ Config.Symbol cfg <> ""
      /\ Atoi (getEnvOrDefault env "N_DAYS" (Itoa DefaultNDays))
         = inl (Config.NDays cfg))
  /\ (forall cause, New Atoi Itoa env = inr (InvalidNDays cause)
        <-> Atoi (getEnvOrDefault env "N_DAYS" (Itoa DefaultNDays)) = inr cause)
  /\ (New Atoi Itoa env = inr APIKeyRequired
        <-> Getenv env "API_KEY" = ""
            /\ exists n, Atoi (getEnvOrDefault env "N_DAYS" (Itoa DefaultNDays)) = inl n).
Proof.
  unfold New.
  destruct (Atoi (getEnvOrDefault env "N_DAYS" (Itoa DefaultNDays))) as [n|err].
  - destruct (decide (Getenv env "API_KEY" = "")) as [Hkey|Hkey].
    + split; [done|]. split; [done|]. split; [by eauto|]. by intros _.
    + split; [|split].
      * intros cfg [= <-]; simpl. repeat split; try done.
        -- unfold getEnvOrDefault. by case_decide.
        -- unfold getEnvOrDefault. by case_decide.
      * done.
      * split; [done|]. by intros [? _].
  - split; [done|]. split.
    + intros cause. split; by intros [= ->].
    + split; [done|]. by intros [_ [n [=]]].
Qed.

(** X17. [New] reads [PORT], [API_KEY], [SYMBOL] and [N_DAYS] and nothing
    else: setting or unsetting any other variable changes nothing; and a
    variable set to the empty string counts as unset. *)
Theorem New_reads_four_variables env key value :
  (key ∉ ["PORT"; "API_KEY"; "SYMBOL"; "N_DAYS"] ->
     New Atoi Itoa (<[key := value]> env) = New Atoi Itoa env
     /\ New Atoi Itoa (delete key env) = New Atoi Itoa env)
  /\ New Atoi Itoa (<[key := ""]> env) = New Atoi Itoa (delete key env).
Proof.
  split.
  - intros Hother. split; apply New_ext; intros k Hk.
    + apply Getenv_insert_ne. by intros ->.
    + apply Getenv_delete_ne. by intros ->.
  - apply New_ext. intros k _. apply Getenv_empty_value.
Qed.

(** X18. [New] does not validate the day count: with an API key set and
    [N_DAYS] a numeral of a negative number it returns a configuration,
    and every call of [GetStockData] under it that misses the cache and
    gets a response from the client panics in the truncation. *)
Theorem New_accepts_negative_days ParseFloat env numeral n :
  Getenv env "API_KEY" <> "" ->
  Getenv env "N_DAYS" = numeral ->
  numeral <> "" ->
  Atoi numeral = inl n ->
  n < 0 ->
  exists cfg,
    New Atoi Itoa env = inl cfg
    /\ Config.NDays cfg = n
    /\ forall t_get t_set apiResponse w,
         snd (Cache.Get (cache w) t_get (Config.Symbol cfg)) = false ->
         fst (GetStockData ParseFloat cfg t_get t_set (inl apiResponse) w)
         = Panic (SliceBoundsOutOfRange n
                    (size (AlphaVantageResponse.TimeSeries apiResponse))).
Proof.
  intros Hkey Hdays Hne Hatoi Hneg. unfold New.
  assert (Hstr : getEnvOrDefault env "N_DAYS" (Itoa DefaultNDays) = numeral).
  { unfold getEnvOrDefault. rewrite Hdays. by case_decide. }
  rewrite Hstr, Hatoi. case_decide; [done|].
  eexists. split; [done|]. split; [done|].
  intros t_get t_set apiResponse w Hmiss.
  rewrite GetStockData_miss by done. simpl.
  by rewrite processAPIResponse_negative.
Qed.

End WithStrconv.

End ConfigLaws.

(** ** The quote client *)

Module ClientLaws.
Import Models Service ServiceFacts ServiceLaws Client.

Section WithEffects.

Variable QueryEscape : string -> string.
Variable Decode : string -> AlphaVantageResponse.t + string.
Variable Get : string -> http_outcome.

Lemma params_keys apiKey symbol days :
  merge_sort asc (map_to_list (params apiKey symbol days)).*1
  = ["apikey"; "function"; "outputsize"; "symbol"].
Proof. unfold params. destruct (days >? compactOutputSizeLimit); by vm_compute. Qed.

Lemma params_lookup apiKey symbol days :
  let v := params apiKey symbol days in
  v !! "apikey" = Some [apiKey]
  /\ v !! "function" = Some [function]
  /\ v !! "outputsize"
     = Some [if days >? compactOutputSizeLimit then outputSizeFull
             else outputSizeCompact]
  /\ v !! "symbol" = Some [symbol].
Proof.
  unfold params, Add. destruct (days >? compactOutputSizeLimit);
    repeat split; by vm_compute.
Qed.

(** X19. The request goes to the base URL with four parameters, in the
    order of their names and each escaped: the API key, the function
    [TIME_SERIES_DAILY], the output size, which is [full] for more than
    100 days and [compact] otherwise, and the symbol. *)
Theorem reqURL_parameters apiKey symbol days :
  reqURL QueryEscape apiKey symbol days
  = baseURL +:+ "?"
    +:+ String.concat "&"
          [ QueryEscape "apikey" +:+ "=" +:+ QueryEscape apiKey;
            QueryEscape "function" +:+ "=" +:+ QueryEscape "TIME_SERIES_DAILY";
            QueryEscape "outputsize" +:+ "="
              +:+ QueryEscape (if days >? 100 then "full" else "compact");
            QueryEscape "symbol" +:+ "=" +:+ QueryEscape symbol ].
Proof.
  unfold reqURL, Encode. rewrite params_keys.
  destruct (params_lookup apiKey symbol days) as (Hkey & Hfun & Hsize & Hsym).
  simpl in *. cbn [mbind list_bind]. rewrite Hkey, Hfun, Hsize, Hsym. simpl.
  reflexivity.
Qed.

(** X20. The client returns a response exactly when the server answers
    with status 200, the body decodes and the decoded time series is not
    empty, and then it returns the decoded response as it is; any other
    status is an error carrying the status and the body, whatever the
    body holds. *)
Theorem GetStockData_success_iff apiKey symbol days :
  (forall result,
      GetStockData QueryEscape Decode Get apiKey symbol days = inl result
      <-> exists body,
            Get (reqURL QueryEscape apiKey symbol days) = HttpResponse 200 body
            /\ Decode body = inl result
            /\ AlphaVantageResponse.TimeSeries result <> ∅)
  /\ (forall code body,
        Get (reqURL QueryEscape apiKey symbol days) = HttpResponse code body ->
        code <> 200 ->
        GetStockData QueryEscape Decode Get apiKey symbol days
        = inr (StatusError code body)).
Proof.
  unfold GetStockData. split.
  - intros result. split.
    + destruct (Get _) as [cause|code body]; [done|].
      case_decide; [done|]. assert (code = 200) as -> by lia.
      destruct (Decode body) as [r|cause] eqn:Hdec; [|done].
      case_decide as Hsize; [done|]. intros [= ->].
      exists body. repeat split; try done.
      intros Hempty. apply Hsize. rewrite Hempty. apply map_size_empty.
    + intros (body & -> & -> & Hne). case_decide; [done|].
      case_decide as Hsize; [|done]. by apply map_size_empty_inv in Hsize.
  - intros code body -> Hcode. by case_decide.
Qed.

(** X21. Behind this client the service never reports "no price data"
    for a positive day count: a payload without dates is turned into an
    error by the client before the service sees it. *)
Theorem service_behind_client_has_data ParseFloat cfg apiKey t_get t_set w symbol :
  0 < Config.NDays cfg ->
  fst (Service.GetStockData ParseFloat cfg t_get t_set
         (reply QueryEscape Decode Get apiKey (Config.Symbol cfg) (Config.NDays cfg)) w)
  <> Err (NoPriceData symbol).
Proof.
  intros Hpos.
  destruct (Cache.Get (cache w) t_get (Config.Symbol cfg)) as [v [|]] eqn:Hget.
  - rewrite (GetStockData_hit _ _ _ _ _ _ _ Hget). by destruct v as [[]|].
  - rewrite GetStockData_miss by (by rewrite Hget). simpl.
    unfold reply, GetStockData.
    destruct (Get _) as [cause|code body]; [done|].
    case_decide; [done|].
    destruct (Decode body) as [result|cause]; [|done].
    case_decide as Hsize; [done|].
    destruct (processAPIResponse _ _ _) as [sd|err|p] eqn:Hproc; simpl; try done.
    intros [= ->]. apply processAPIResponse_NoPriceData in Hproc. lia.
Qed.

End WithEffects.

End ClientLaws.

(** ** The handler of [/stocks] *)

Module HandlerLaws.
Import Models Service ServiceFacts ServiceLaws Handler.

Section WithEffects.

Variable ParseFloat : string -> float + NumError.
Variable Error : error -> string.
Variable encode_error : payload -> option string.

Lemma status_sendJSONResponse data :
  status (sendJSONResponse encode_error data) = Some StatusOK.
Proof. done. Qed.

Lemma status_sendErrorResponse message code :
  status (sendErrorResponse encode_error message code) = Some code.
Proof. done. Qed.

(** X22. A request whose method is not GET is answered 405 without the
    service being called: the cache and the log of client calls stay as
    they are.  A GET request is answered 200 exactly when the service
    returns a result, whose symbol, prices and average are then handed to
    the encoder unchanged, and 500 exactly when it returns an error; a
    failure of the encoder does not change the status already written. *)
Theorem HandleStocks_status cfg method t_get t_set reply w :
  let call := GetStockData ParseFloat cfg t_get t_set reply w in
  let handled := HandleStocks ParseFloat Error encode_error cfg method
                   t_get t_set reply w in
  (method <> MethodGet ->
     handled = (Responded [HttpError "Method not allowed" StatusMethodNotAllowed], w))
  /\ (method = MethodGet ->
      snd handled = snd call
      /\ (forall events, fst handled = Responded events ->
            (status events = Some StatusOK
             <-> exists stockData,
                   fst call = Ok (Some stockData)
                   /\ Encode (StockResponse (StockData.Symbol stockData)
                                (StockData.Prices stockData)
                                (StockData.Average stockData)) ∈ events)
            /\ (status events = Some StatusInternalServerError
                <-> exists err, fst call = Err err
                                /\ Encode (ErrorResponse (Error err)) ∈ events))).
Proof.
  intros call handled. subst handled. unfold HandleStocks. split.
  - intros Hne. by case_decide.
  - intros ->. case_decide; [done|]. fold call.
    destruct call as [[[sd|]|err|p] w']; simpl; (split; [done|]).
    + intros events [= <-]. split; split; try done.
      * intros _. exists sd. split; [done|]. unfold sendJSONResponse. set_solver.
      * by intros (err & [=] & _).
    + by intros events [=].
    + intros events [= <-]. split; split; try done.
      * by intros (sd & [=] & _).
      * intros _. exists err. split; [done|]. unfold sendErrorResponse. set_solver.
    + by intros events [=].
Qed.

(** X23. Under a day count that is not negative, in every world reached
    by [GetStockData] alone, the handler answers every request: it
    neither panics nor dereferences a nil pointer, and the status it
    writes is 200, 405 or 500. *)
Theorem HandleStocks_always_responds cfg method t_get t_set reply w :
  0 <= Config.NDays cfg ->
  reachable ParseFloat cfg w ->
  exists events code,
    fst (HandleStocks ParseFloat Error encode_error cfg method t_get t_set reply w)
    = Responded events
    /\ status events = Some code
    /\ code ∈ [StatusOK; StatusMethodNotAllowed; StatusInternalServerError].
Proof.
  intros Hnn Hreach. unfold HandleStocks. case_decide.
  { eexists _, _. split; [done|]. split; [done|]. set_solver. }
  destruct (reachable_call_outcome ParseFloat cfg w t_get t_set reply Hnn Hreach)
    as [[sd Hok]|[err Herr]];
    destruct (GetStockData _ _ _ _ _ _) as [r w']; simpl in *; subst r.
  - eexists _, _. split; [done|]. split; [done|]. set_solver.
  - eexists _, _. split; [done|]. split; [done|]. set_solver.
Qed.

End WithEffects.

End HandlerLaws.

(** ** The further properties at concrete inputs *)

Module LawsExamples.
Import Models Service ServiceFacts Fixtures Stubs.

Lemma in_range_small (z : Z) : 0 <= z <= 1000 -> Int64.in_range z.
Proof. unfold Int64.in_range, Int64.min_int64, Int64.max_int64. lia. Qed.

Lemma Cleanup_invisible_later_witness :
  Cache.Get (Cache.Cleanup old_and_new 10) 20 "new" = (Some 2%nat, true).
Proof.
  rewrite (CacheLaws.Cleanup_invisible_later nat old_and_new 10 20 "new").
  - reflexivity.
  - apply in_range_small. lia.
  - apply in_range_small. lia.
  - lia.
Defined.

Lemma Get_expiry_monotone_witness :
  Cache.Get old_and_new 20 "old" = (None, false).
Proof.
  apply (CacheLaws.Get_expiry_monotone nat old_and_new 10 20 "old").
  - apply in_range_small. lia.
  - apply in_range_small. lia.
  - lia.
  - reflexivity.
Defined.

Lemma Set_visible_iff_no_overflow_witness :
  Cache.Get (Cache.Set_ Cache.New t2026 "k" (Some 7%nat) Time.MaxDuration) t2026 "k"
  = (None, false).
Proof.
  apply (CacheLaws.Set_visible_iff_no_overflow nat Cache.New t2026 "k" (Some 7%nat)
           Time.MaxDuration).
  - unfold Int64.in_range. vm_compute. split; discriminate.
  - vm_compute. split; [reflexivity|discriminate].
  - reflexivity.
Defined.

Lemma two_newest_transform :
  processAPIResponse ParseFloat_decimal (config "AAPL" 2) (response three_days)
  = Ok two_newest.
Proof. vm_compute. reflexivity. Qed.

Lemma processAPIResponse_keeps_newest_witness :
  String.ltb "2023-01-01" "2023-01-02" = true.
Proof.
  apply (ServiceLaws.processAPIResponse_keeps_newest ParseFloat_decimal
           (config "AAPL" 2) (response three_days) two_newest).
  - apply two_newest_transform.
  - simpl. apply elem_of_cons. right. apply elem_of_cons. by left.
  - by eexists.
  - simpl. rewrite !elem_of_cons, elem_of_nil. intros [H|[H|H]]; [discriminate..|done].
Defined.

Lemma processAPIResponse_prices_from_payload_witness :
  StockData.Symbol two_newest = "AAPL"
  /\ NoDup (StockPrice.Date <$> StockData.Prices two_newest).
Proof.
  destruct (ServiceLaws.processAPIResponse_prices_from_payload ParseFloat_decimal
              (config "AAPL" 2) (response three_days) two_newest two_newest_transform)
    as (Hnodup & _ & Hsymbol & _).
  split; [exact Hsymbol|exact Hnodup].
Defined.

Lemma processAPIResponse_reports_newest_failure_witness :
  exists date cause,
    processAPIResponse ParseFloat_decimal (config "AAPL" 3) (response one_invalid)
    = Err (ParseCloseError date cause).
Proof.
  destruct (ServiceLaws.processAPIResponse_reports_newest_failure ParseFloat_decimal
              (config "AAPL" 3) (response one_invalid) "2023-01-03")
    as (date & cause & Herr & _).
  - simpl. lia.
  - change (take (Z.to_nat (Config.NDays (config "AAPL" 3)))
              (sorted_dates (AlphaVantageResponse.TimeSeries (response one_invalid))))
      with ["2023-01-03"; "2023-01-02"].
    apply elem_of_cons. by left.
  - intros [f Hf]. vm_compute in Hf. discriminate.
  - by exists date, cause.
Defined.

Lemma processAPIResponse_reads_close_only_witness :
  processAPIResponse ParseFloat_decimal (config "AAPL" 2) (response three_days_full)
  = processAPIResponse ParseFloat_decimal (config "AAPL" 2) (response three_days).
Proof.
  apply (ServiceLaws.processAPIResponse_reads_close_only ParseFloat_decimal).
  vm_compute. reflexivity.
Defined.

Lemma GetStockData_never_panics_witness :
  fst (GetStockData ParseFloat_decimal (config "AAPL" 2)
         (t2026 + 5 * Time.Minute) (t2026 + 5 * Time.Minute)
         (inr (ClientError "unreachable")) filled_world)
  <> Ok None.
Proof.
  apply (ServiceLaws.GetStockData_never_panics ParseFloat_decimal
           (config "AAPL" 2) filled_world).
  - simpl. lia.
  - unfold filled_world. apply reachable_call, reachable_initial.
Defined.

Lemma New_accepts_negative_days_witness :
  exists cfg,
    ConfigEnv.New Strconv.Atoi Strconv.Itoa env_negative_days = inl cfg
    /\ Config.NDays cfg = -1.
Proof.
  destruct (ConfigLaws.New_accepts_negative_days Strconv.Atoi Strconv.Itoa
              ParseFloat_decimal env_negative_days "-1" (-1))
    as (cfg & Hnew & Hdays & _).
  - discriminate.
  - reflexivity.
  - discriminate.
  - reflexivity.
  - lia.
  - by exists cfg.
Defined.

Lemma service_behind_client_has_data_witness :
  fst (GetStockData ParseFloat_decimal (config "AAPL" 2) t2026 t2026
         (Client.reply escape_plain decode_no_dates server_no_dates
            "demo" "AAPL" 2) initial)
  <> Err (NoPriceData "AAPL").
Proof.
  apply (ClientLaws.service_behind_client_has_data escape_plain decode_no_dates
           server_no_dates ParseFloat_decimal (config "AAPL" 2) "demo"
           t2026 t2026 initial "AAPL").
  simpl. lia.
Defined.

Lemma HandleStocks_always_responds_witness :
  exists events code,
    fst (Handler.HandleStocks ParseFloat_decimal render encoder_ok (config "AAPL" 2)
           "GET" (t2026 + 5 * Time.Minute) (t2026 + 5 * Time.Minute)
           (inr (ClientError "unreachable")) filled_world)
    = Handler.Responded events
    /\ Handler.status events = Some code
    /\ code ∈ [Handler.StatusOK; Handler.StatusMethodNotAllowed;
               Handler.StatusInternalServerError].
Proof.
  apply (HandlerLaws.HandleStocks_always_responds ParseFloat_decimal render encoder_ok
           (config "AAPL" 2) "GET").
  - simpl. lia.
  - unfold filled_world. apply reachable_call, reachable_initial.
Defined.

Lemma reachable_single_entry_witness :
  (size (Cache.items (cache filled_world)) <= 1)%nat.
Proof.
  apply (ServiceLaws.reachable_single_entry ParseFloat_decimal (config "AAPL" 2)
           filled_world).
  unfold filled_world. apply reachable_call, reachable_initial.
Defined.

(** The parsers of day counts on some numerals. *)
Example Atoi_examples :
  Strconv.Atoi "7" = inl 7
  /\ Strconv.Atoi "-1" = inl (-1)
  /\ Strconv.Atoi "+12" = inl 12
  /\ Strconv.Atoi "" = inr ErrSyntax
  /\ Strconv.Atoi "-" = inr ErrSyntax
  /\ Strconv.Atoi "7 " = inr ErrSyntax
  /\ Strconv.Atoi "9223372036854775807" = inl Int64.max_int64
  /\ Strconv.Atoi "9223372036854775808" = inr ErrRange
  /\ Strconv.Atoi "-9223372036854775808" = inl Int64.min_int64
  /\ Strconv.Atoi (Strconv.Itoa ConfigEnv.DefaultNDays) = inl 7.
Proof. repeat split; reflexivity. Qed.

(** In an environment that holds an API key only, the defaults apply. *)
Example New_defaults :
  ConfigEnv.New Strconv.Atoi Strconv.Itoa (<["API_KEY" := "demo"]> ∅)
  = inl {| Config.Port := "8080"; Config.APIKey := "demo";
           Config.Symbol := "IBM"; Config.NDays := 7 |}.
Proof. reflexivity. Qed.

End LawsExamples.
